(** * HomeyPrayersWeb: the server's own code, embedded and verified

    The repository's first-party code is four small pieces:
    - [app.ts]: the process entry point (load configuration, build the
      [App], listen, close on SIGINT);
    - [routes/main.router.ts]: the [App] class, which composes an Express
      application out of a static-file middleware, the controllers' routers
      and an error middleware;
    - [controllers/main.controller.ts]: the one controller, which sends one
      file on one route;
    - [exceptions/exception.handler.ts]: a taxonomy of HTTP-style exceptions.

    Everything else the program does is done by Express, nconf and Node.
    The parts of those libraries that the source calls are modelled below,
    each in a module of its own named after the library, so that the
    embedding of the repository's code reads like the code. *)

From Stdlib Require Import ZArith String Ascii List Bool Lia.
From stdpp Require Import base option gmap strings list.
Import ListNotations.

Local Open Scope string_scope.
Local Open Scope Z_scope.

(** ** JavaScript values and thrown errors *)

Module Js.

(** The primitive values: what a configuration store can hold, as far as
    the source reads it, and what a handler can throw besides an object.
    [JsUndefined] is what [nconf.get] gives for a missing key. *)
Inductive value :=
| JsUndefined
| JsNull
| JsBool (b : bool)
| JsNum (n : Z)
| JsStr (s : string).

Definition typeof_string (v : value) : option string :=
  match v with JsStr s => Some s | _ => None end.

(** The classes of error objects that occur: the built-in ones and the
    classes of exception.handler. An object's class is [new.target] of the
    [new] expression that created it. *)
Inductive error_class :=
| Error
| TypeError
| SyntaxError
| HttpException
| UserWithThatEmailAlreadyExistsException
| WrongCredentialsException
| PostNotFoundException
| AuthenticationTokenMissingException
| WrongAuthenticationTokenException.

#[global] Instance error_class_eq_dec : EqDecision error_class.
Proof. solve_decision. Defined.

#[global] Instance value_eq_dec : EqDecision value.
Proof. solve_decision. Defined.

(** An error object: its class and its own data properties. *)
Record error := MkError {
  class : error_class;
  props : gmap string value
}.

(** [new Error(message)], run on behalf of [new_target]: the only own
    data property the built-in constructor sets from its argument is
    [message]. *)
Definition Error_constructor (new_target : error_class) (message : string)
  : error :=
  {| class := new_target; props := {[ "message" := JsStr message ]} |}.

(** Reading a property: a missing one reads as [undefined]. *)
Definition get (e : error) (k : string) : value :=
  default JsUndefined (props e !! k).

(** What a [throw] statement, or a call [next(v)], hands on: an object or
    a primitive. *)
Inductive thrown :=
| Object (e : error)
| Primitive (v : value).

(** [Boolean(v)] *)
Definition truthy (v : value) : bool :=
  match v with
  | JsUndefined | JsNull => false
  | JsBool b => b
  | JsNum n => negb (n =? 0)
  | JsStr s => negb (String.eqb s "")
  end.

(** Results of code that may throw. The library code that is called while
    the application is built throws error objects only. *)
Inductive result (A : Type) :=
| Ok (a : A)
| Throws (e : error).
Arguments Ok {A} a.
Arguments Throws {A} e.

Definition bind {A B} (m : result A) (k : A -> result B) : result B :=
  match m with
  | Ok a => k a
  | Throws e => Throws e
  end.

End Js.

#[global] Instance result_ret : MRet Js.result := @Js.Ok.
#[global] Instance result_bind : MBind Js.result :=
  fun A B k m => Js.bind m k.

(** ** exceptions/exception.handler *)

Module Exceptions.
Import Js.

(** [class HttpException extends Error { constructor(status, message) {
    super(message); } }] *)
Definition HttpException_constructor (new_target : error_class)
    (status : Z) (message : string) : error :=
  Error_constructor new_target message.

Definition new_HttpException (status : Z) (message : string) : error :=
  HttpException_constructor HttpException status message.

(** The five subclasses. Each constructor is one [super(status, message)]
    call; [super_arguments] gives the two arguments it passes, for the
    constructor's own argument [arg] (the e-mail or the post id; the
    three constructors without a parameter ignore it). *)
Inductive subclass :=
| UserWithThatEmailAlreadyExists
| WrongCredentials
| PostNotFound
| AuthenticationTokenMissing
| WrongAuthenticationToken.

#[global] Instance subclass_eq_dec : EqDecision subclass.
Proof. solve_decision. Defined.

Definition class_of (c : subclass) : error_class :=
  match c with
  | UserWithThatEmailAlreadyExists => UserWithThatEmailAlreadyExistsException
  | WrongCredentials => WrongCredentialsException
  | PostNotFound => PostNotFoundException
  | AuthenticationTokenMissing => AuthenticationTokenMissingException
  | WrongAuthenticationToken => WrongAuthenticationTokenException
  end.

Definition super_arguments (c : subclass) (arg : string) : Z * string :=
  match c with
  | UserWithThatEmailAlreadyExists =>
      (404, "user with email " +:+ arg +:+ " not found")
  | WrongCredentials => (404, "Wrong Password provided")
  | PostNotFound => (404, "Post with id " +:+ arg +:+ " not found")
  | AuthenticationTokenMissing => (404, "Authentication Token Missing")
  | WrongAuthenticationToken => (404, "Authentication Token Missing")
  end.

Definition new_exception (c : subclass) (arg : string) : error :=
  HttpException_constructor (class_of c)
    (fst (super_arguments c arg)) (snd (super_arguments c arg)).

End Exceptions.

(** ** Node's [path] module (POSIX flavour) *)

Module Path.

Definition sep : ascii := "/"%char.

(** [s.split('/')] *)
Fixpoint split (s : string) : list string :=
  match s with
  | EmptyString => [EmptyString]
  | String c r =>
      if Ascii.eqb c sep then EmptyString :: split r
      else match split r with
           | h :: t => String c h :: t
           | [] => [String c EmptyString]
           end
  end.

Definition starts_with (c : ascii) (s : string) : bool :=
  match s with
  | String d _ => Ascii.eqb c d
  | EmptyString => false
  end.

Fixpoint ends_with (c : ascii) (s : string) : bool :=
  match s with
  | EmptyString => false
  | String d EmptyString => Ascii.eqb c d
  | String _ r => ends_with c r
  end.

Definition isAbsolute (p : string) : bool := starts_with sep p.

(** The segment walk of [normalizeString]: [acc] is the stack of kept
    segments, innermost first. *)
Fixpoint normalize_segments (allow_above_root : bool)
    (acc : list string) (segs : list string) : list string :=
  match segs with
  | [] => rev acc
  | seg :: rest =>
      if String.eqb seg "" || String.eqb seg "." then
        normalize_segments allow_above_root acc rest
      else if String.eqb seg ".." then
        match acc with
        | top :: acc' =>
            if String.eqb top ".." then
              normalize_segments allow_above_root (".." :: acc) rest
            else normalize_segments allow_above_root acc' rest
        | [] =>
            if allow_above_root then
              normalize_segments allow_above_root [".."] rest
            else normalize_segments allow_above_root [] rest
        end
      else normalize_segments allow_above_root (seg :: acc) rest
  end.

(** [path.normalize(p)] *)
Definition normalize (p : string) : string :=
  if String.eqb p "" then "."
  else
    let absolute := isAbsolute p in
    let trailing := ends_with sep p in
    let body :=
      String.concat "/" (normalize_segments (negb absolute) [] (split p)) in
    let body :=
      if String.eqb body "" then (if absolute then "" else ".") else body in
    let body :=
      if trailing && negb (String.eqb body "") then body +:+ "/" else body in
    if absolute then "/" +:+ body else body.

(** [path.join(...args)], for arguments already known to be strings. *)
Definition join (args : list string) : string :=
  let parts := filter (fun a => a <> "") args in
  match parts with
  | [] => "."
  | _ => normalize (String.concat "/" parts)
  end.

(** [path.join] as the source calls it, on values read from the
    configuration: an argument that is not a string makes it throw a
    [TypeError]. *)
Definition join_values (args : list Js.value) : Js.result string :=
  match mapM Js.typeof_string args with
  | Some strs => Js.Ok (join strs)
  | None =>
      Js.Throws (Js.Error_constructor Js.TypeError
        "The path argument must be of type string")
  end.

Definition strip_trailing_sep (p : string) : string :=
  if ends_with sep p && negb (String.eqb p "/")
  then String.substring 0 (String.length p - 1) p else p.

(** [path.resolve(p)] in a process whose working directory is [cwd]. *)
Definition resolve (cwd : string) (p : string) : string :=
  strip_trailing_sep
    (normalize (if isAbsolute p then p else cwd +:+ "/" +:+ p)).

End Path.

(** ** The file system the server reads *)

Module Fs.

Inductive node :=
| File (content : string)
| Dir.

(** Files and directories by absolute, normalised path. *)
Record t := Make {
  cwd : string;                 (* process.cwd() *)
  nodes : gmap string node
}.

(** [fs.stat(p)]: [None] is ENOENT (or ENOTDIR). A path written with a
    trailing separator only names a directory. *)
Definition stat (fs : t) (p : string) : option node :=
  match nodes fs !! Path.resolve (cwd fs) p with
  | Some (File c) =>
      if Path.ends_with Path.sep p then None else Some (File c)
  | other => other
  end.

End Fs.

(** ** HTTP requests and responses *)

Module Http.

Inductive method := GET | HEAD | OPTIONS | POST | PUT | PATCH | DELETE.

#[global] Instance method_eq_dec : EqDecision method.
Proof. solve_decision. Defined.

Definition method_name (m : method) : string :=
  match m with
  | GET => "GET" | HEAD => "HEAD" | OPTIONS => "OPTIONS" | POST => "POST"
  | PUT => "PUT" | PATCH => "PATCH" | DELETE => "DELETE"
  end.

(** A request: a method and the path of the URL as the client wrote it,
    with no query string and no conditional or range headers. *)
Record request := Request {
  req_method : method;
  req_path : string
}.

Record response := Response {
  res_status : Z;
  res_body : string
}.

#[global] Instance response_eq_dec : EqDecision response.
Proof. solve_decision. Defined.

End Http.

(** ** Express: the part of the framework the source calls

    [app.use], [Router().get], [express.static] (serve-static over send),
    [response.sendFile], the dispatch of a request down the middleware
    stack, and the default final handler. *)

Module Express.
Import Http.

(** *** Path patterns

    Express compiles the path given to [use] or to [get] with
    path-to-regexp. What the compiled pattern does is to match URLs: as the
    path of a mount ([use]) it matches every URL below it and gives the
    rest of the URL, as the path of a route ([get]) it matches whole
    URLs. *)
Record matcher := Matcher {
  as_mount : string -> option string;
  as_route : string -> bool
}.

(** A literal path is made of letters, digits and the characters in
    [/-_.~], and starts with a slash. None of these characters means
    anything to path-to-regexp: the pattern of a literal path matches the
    path itself, without regard to case and to one trailing slash. *)

Definition lower_ascii (c : ascii) : ascii :=
  let n := nat_of_ascii c in
  if ((65 <=? n) && (n <=? 90))%nat then ascii_of_nat (n + 32) else c.

Fixpoint lower (s : string) : string :=
  match s with
  | EmptyString => EmptyString
  | String c r => String (lower_ascii c) (lower r)
  end.

Definition literal_char (c : ascii) : bool :=
  let n := nat_of_ascii c in
  (((48 <=? n) && (n <=? 57)) || ((65 <=? n) && (n <=? 90)) ||
   ((97 <=? n) && (n <=? 122)) ||
   (n =? 47) || (n =? 45) || (n =? 95) || (n =? 46) || (n =? 126))%nat.

Fixpoint all_chars (f : ascii -> bool) (s : string) : bool :=
  match s with
  | EmptyString => true
  | String c r => f c && all_chars f r
  end.

Definition literal_path (p : string) : bool :=
  Path.starts_with Path.sep p && all_chars literal_char p.

(** The pattern without its optional trailing slash; for [/] this is the
    empty string. *)
Definition pattern_stem (p : string) : string :=
  lower (if Path.ends_with Path.sep p
         then String.substring 0 (String.length p - 1) p else p).

Fixpoint drop_chars (n : nat) (s : string) : string :=
  match n, s with
  | O, _ => s
  | S n', String _ r => drop_chars n' r
  | S _, EmptyString => EmptyString
  end.

(** A layer added by [use(path, fn)] with a literal path matches every
    URL that starts with [path] at a segment boundary; the handler sees
    the URL with that prefix removed (and a leading slash ensured).
    [Some rest] is a match. *)
Definition mount_strip (mount url : string) : option string :=
  let m := pattern_stem mount in
  if String.eqb m "" then Some url
  else if String.prefix m (lower url) then
    match drop_chars (String.length m) url with
    | EmptyString => Some "/"
    | String c r =>
        if Ascii.eqb c Path.sep then Some (String c r) else None
    end
  else None.

(** A route added by [router.get(path, fn)] with a literal path matches
    the whole URL. *)
Definition route_match (pattern url : string) : bool :=
  let m := pattern_stem pattern in
  String.eqb (lower url) m || String.eqb (lower url) (m +:+ "/").

(** The pattern of a literal path. *)
Definition literal (p : string) : matcher :=
  {| as_mount := mount_strip p; as_route := route_match p |}.

(** What is taken from the libraries as it comes: what path-to-regexp
    makes of a path that is no literal path (a pattern, or an exception
    such as the SyntaxError for an unbalanced parenthesis), and what
    [decodeURIComponent] makes of a request path that is not plain
    ([None] when it throws). *)
Record library := Library {
  pathRegexp : Js.value -> Js.result matcher;
  decodeURIComponent : string -> option string
}.

(** [pathRegexp(path, keys, opts)] as [Layer] calls it. Reading
    [path.length] of [undefined] or [null] throws before anything is
    compiled. *)
Definition compile (lib : library) (path : Js.value) : Js.result matcher :=
  match path with
  | Js.JsStr p =>
      if literal_path p then Js.Ok (literal p) else pathRegexp lib path
  | Js.JsUndefined =>
      Js.Throws (Js.Error_constructor Js.TypeError
                   "Cannot read property length of undefined")
  | Js.JsNull =>
      Js.Throws (Js.Error_constructor Js.TypeError
                   "Cannot read property length of null")
  | _ => pathRegexp lib path
  end.

(** *** Handlers *)

(** What one handler does with a request: it answers, it calls [next()],
    it calls [next(v)], or it throws [v]. An [async] handler in which
    something is thrown does none of these: it returns a promise that
    rejects, and the layer that called it looks at no return value. *)
Inductive outcome :=
| Respond (r : response)
| Next
| NextErr (t : Js.thrown)
| Throw (t : Js.thrown)
| Rejects (t : Js.thrown).

(** What [next(v)] means to the router: a value that is not truthy, and
    the string ['route'], carry no error and the walk goes on; the string
    ['router'] leaves the router; everything else is an error. A layer
    calls [next(v)] for whatever its handler throws. *)
Inductive signal := Continue | LeaveRouter | Fail.

Definition next_with (t : Js.thrown) : signal :=
  match t with
  | Js.Object _ => Fail
  | Js.Primitive v =>
      if negb (Js.truthy v) then Continue
      else match v with
           | Js.JsStr s =>
               if String.eqb s "route" then Continue
               else if String.eqb s "router" then LeaveRouter
               else Fail
           | _ => Fail
           end
  end.


Definition route_handler := request -> Fs.t -> outcome.

Record route := Route {
  route_method : method;
  route_path : matcher;
  route_handle : route_handler
}.

(** [express.Router()] with the routes added to it, in order. *)
Definition router := list route.

Definition Router : router := [].

(** [router.get(path, handler)] *)
Definition router_get (lib : library) (path : Js.value) (h : route_handler)
    (r : router) : Js.result router :=
  m ← compile lib path;
  mret (r ++ [Route GET m h])%list.

Inductive dotfiles_mode := Allow | Deny | Ignore.

(** The options of [express.static]. [index := []] is [index: false]. *)
Record static_options := StaticOptions {
  dotfiles : option dotfiles_mode;
  etag : bool;
  extensions : list string;
  index : list string;
  maxAge : string;
  redirect : bool;
  setHeaders : list string      (* the headers a setHeaders hook sets *)
}.

(** What [express.static(root)] uses when it is given no options. *)
Definition default_static_options : static_options :=
  {| dotfiles := None; etag := true; extensions := [];
     index := ["index.html"]; maxAge := "0"; redirect := true;
     setHeaders := [] |}.

Inductive middleware :=
| Static (root : string) (options : option static_options)
| RouterMw (r : router)
| ErrorMw (f : Js.thrown -> response).

Record layer := Layer {
  layer_path : matcher;
  layer_handle : middleware
}.

(** An application is its middleware stack. (The two layers Express puts
    in front of every stack, query parsing and request initialisation,
    always pass the request on and are left out.) *)
Definition application := list layer.

Definition express : application := [].

(** [app.use(path, fn)] *)
Definition app_use (lib : library) (path : Js.value) (fn : middleware)
    (app : application) : Js.result application :=
  m ← compile lib path;
  mret (app ++ [Layer m fn])%list.

(** [app.use(fn)]: the path defaults to [/]. *)
Definition app_use_root (fn : middleware) (app : application) : application :=
  (app ++ [Layer (literal "/") fn])%list.


(** *** send: streaming one file *)

Inductive send_result :=
| Sent (content : string)
| Directory
| SendError (status : Z).

(** A plain path has no percent-escape and no character outside the
    literal ones: decoding leaves it as it is. *)
Definition plain (path : string) : bool := all_chars literal_char path.

(** [decode(path)] *)
Definition decode (lib : library) (path : string) : option string :=
  if plain path then Some path else decodeURIComponent lib path.

Definition has_nul (path : string) : bool :=
  negb (all_chars (fun c => negb (Ascii.eqb c Ascii.zero)) path).

Definition contains_dotfile (parts : list string) : bool :=
  existsb (fun part =>
    (1 <? String.length part)%nat && Path.starts_with "." part) parts.

(** With no [dotfiles] option, a request whose last segment is a dotfile
    is ignored and one that only passes through a hidden directory is
    allowed. *)
Definition dotfile_access (o : static_options) (parts : list string)
  : dotfiles_mode :=
  match dotfiles o with
  | Some m => m
  | None => if Path.starts_with "." (List.last parts "") then Ignore else Allow
  end.

Definition up_path (p : string) : bool :=
  existsb (String.eqb "..") (Path.split p).

Definition backslash : ascii := ascii_of_nat 92.

(** [s.split(sep)] for a separator that is a slash of either kind. *)
Fixpoint split_slashes (s : string) : list string :=
  match s with
  | EmptyString => [EmptyString]
  | String c r =>
      if Ascii.eqb c Path.sep || Ascii.eqb c backslash
      then EmptyString :: split_slashes r
      else match split_slashes r with
           | h :: t => String c h :: t
           | [] => [String c EmptyString]
           end
  end.

(** [UP_PATH_REGEXP.test(p)]: a [..] between slashes of either kind. *)
Definition malicious (p : string) : bool :=
  existsb (String.eqb "..") (split_slashes p).

Fixpoint has_dot (s : string) : bool :=
  match s with
  | EmptyString => false
  | String c r => Ascii.eqb c "." || has_dot r
  end.

(** [path.extname(p) !== ''] *)
Definition has_extname (p : string) : bool :=
  match List.last (Path.split p) "" with
  | EmptyString => false
  | String _ r => has_dot r
  end.

Fixpoint first_file (fs : Fs.t) (candidates : list string) : send_result :=
  match candidates with
  | [] => SendError 404
  | p :: rest =>
      match Fs.stat fs p with
      | Some (Fs.File c) => Sent c
      | _ => first_file fs rest
      end
  end.

(** [SendStream.sendFile] *)
Definition send_sendFile (o : static_options) (fs : Fs.t) (path : string)
  : send_result :=
  match Fs.stat fs path with
  | Some (Fs.File c) => Sent c
  | Some Fs.Dir => Directory
  | None =>
      if negb (has_extname path) && negb (Path.ends_with Path.sep path)
      then first_file fs (map (fun ext => path +:+ "." +:+ ext) (extensions o))
      else SendError 404
  end.

(** [SendStream.sendIndex] *)
Definition send_sendIndex (o : static_options) (fs : Fs.t) (path : string)
  : send_result :=
  first_file fs (map (fun name => Path.join [path; name]) (index o)).

(** [send(req, path, {root, ...}).pipe(res)]: the path is decoded, made
    relative, refused when it climbs, and looked up under the root. *)
Definition send (lib : library) (root : string) (o : static_options)
    (fs : Fs.t) (path : string) : send_result :=
  match decode lib path with
  | None => SendError 400
  | Some decoded =>
      if has_nul decoded then SendError 400
      else
        let rel :=
          if String.eqb decoded "" then ""
          else Path.normalize ("./" +:+ decoded) in
        if malicious rel then SendError 403
        else
          let parts := Path.split rel in
          let full := Path.normalize (Path.join [root; rel]) in
          let serve :=
            if negb (Nat.eqb (List.length (index o)) 0)
               && Path.ends_with Path.sep path
            then send_sendIndex o fs full
            else send_sendFile o fs full in
          if contains_dotfile parts then
            match dotfile_access o parts with
            | Allow => serve
            | Deny => SendError 403
            | Ignore => SendError 404
            end
          else serve
  end.

Definition body_for (m : method) (content : string) : string :=
  match m with HEAD => "" | _ => content end.

(** *** serve-static: the middleware [express.static(root, options)]

    [url] is the URL as the client sent it, [rest] what is left of it
    below the mount point. Methods other than GET and HEAD, and every
    miss, fall through to the next layer. *)
Definition serve_static (lib : library) (root : string)
    (options : option static_options)
    (fs : Fs.t) (m : method) (url rest : string) : outcome :=
  let o := default default_static_options options in
  match m with
  | GET | HEAD =>
      let path :=
        if String.eqb rest "/" && negb (Path.ends_with Path.sep url)
        then "" else rest in
      match send lib (Path.resolve (Fs.cwd fs) root) o fs path with
      | Sent c => Respond (Response 200 (body_for m c))
      | Directory =>
          if redirect o && negb (Path.ends_with Path.sep path)
          then Respond (Response 301 ("Redirecting to " +:+ url +:+ "/"))
          else Next
      | SendError _ => Next
      end
  | _ => Next
  end.

(** *** [response.sendFile(path, options)]

    as the controller calls it: no [root], [dotfiles: allow], no index.
    A missing file is passed on as an error with status 404, a directory
    is passed on without one. *)
Definition http_error (status : Z) (message : string) : Js.error :=
  {| Js.class := Js.Error;
     Js.props := {[ "message" := Js.JsStr message;
                    "status" := Js.JsNum status ]} |}.

Definition response_sendFile (fs : Fs.t) (m : method) (path : string)
  : outcome :=
  if String.eqb path "" then
    Throw (Js.Object (Js.Error_constructor Js.TypeError
                        "path argument is required to res.sendFile"))
  else if negb (Path.isAbsolute path) then
    Throw (Js.Object (Js.Error_constructor Js.TypeError
                        "path must be absolute or specify root to res.sendFile"))
  else if up_path path then NextErr (Js.Object (http_error 403 "Forbidden"))
  else
    match Fs.stat fs path with
    | Some (Fs.File c) => Respond (Response 200 (body_for m c))
    | Some Fs.Dir => Next
    | None => NextErr (Js.Object (http_error 404 "Not Found"))
    end.

(** *** Dispatch *)

(** [route._handles_method(method)]: a GET route also takes HEAD. *)
Definition method_match (route_m req_m : method) : bool :=
  bool_decide (route_m = req_m) ||
  (bool_decide (req_m = HEAD) && bool_decide (route_m = GET)).

(** [route._options()]: the methods a route lists for an OPTIONS
    request. *)
Definition allowed (rt : route) : list string :=
  match route_method rt with
  | GET => ["GET"; "HEAD"]
  | m => [method_name m]
  end.

(** [appendMethods(list, addition)] *)
Fixpoint append_methods (options methods : list string) : list string :=
  match methods with
  | [] => options
  | m :: rest =>
      append_methods
        (if existsb (String.eqb m) options then options
         else (options ++ [m])%list)
        rest
  end.

(** How a router ends when no route took the request: an OPTIONS request
    for which routes were found is answered with the list of their
    methods, every other request goes back to the application. *)
Definition options_response (req : request) (options : list string)
  : outcome :=
  if bool_decide (req_method req = OPTIONS)
     && negb (Nat.eqb (List.length options) 0)
  then Respond (Response 200 (String.concat "," options))
  else Next.

(** A router runs its routes in order; [options] collects the methods of
    the routes that match the path of an OPTIONS request. What a handler
    throws is caught by the layer and treated as [next(v)]; a router
    without error handlers of its own hands an error back to the
    application. [inr] is a walk past the last route. *)
Fixpoint router_scan (r : router) (fs : Fs.t) (req : request)
    (options : list string) : outcome + list string :=
  match r with
  | [] => inr options
  | rt :: rest =>
      if as_route (route_path rt) (req_path req) then
        if method_match (route_method rt) (req_method req) then
          match route_handle rt req fs with
          | Respond res => inl (Respond res)
          | Next => router_scan rest fs req options
          | NextErr t | Throw t =>
              match next_with t with
              | Continue => router_scan rest fs req options
              | LeaveRouter => inl (options_response req options)
              | Fail => inl (NextErr t)
              end
          | Rejects t => inl (Rejects t)
          end
        else
          router_scan rest fs req
            (if bool_decide (req_method req = OPTIONS)
             then append_methods options (allowed rt) else options)
      else router_scan rest fs req options
  end.

Definition router_handle (r : router) (fs : Fs.t) (req : request) : outcome :=
  match router_scan r fs req [] with
  | inl o => o
  | inr options => options_response req options
  end.

(** The final handler, reached when the stack is exhausted. *)
Definition finalhandler (req : request) (err : option Js.thrown) : response :=
  match err with
  | None =>
      Response 404
        ("Cannot " +:+ method_name (req_method req) +:+ " " +:+ req_path req)
  | Some (Js.Object e) =>
      let status :=
        match Js.get e "status" with
        | Js.JsNum n => if (400 <=? n) && (n <? 600) then n else 500
        | _ => 500
        end in
      Response status
        (match Js.get e "message" with Js.JsStr s => s | _ => "" end)
  | Some (Js.Primitive _) => Response 500 ""
  end.

(** [app.handle]: the walk down the stack. [err] is the error being
    propagated, if any: while there is one only error middleware run,
    while there is none they are skipped. The result is the response sent,
    or [None] when the walk stops with the request unanswered. *)
Fixpoint handle (lib : library) (stack : application) (fs : Fs.t)
    (req : request) (err : option Js.thrown) : option response :=
  match stack with
  | [] => Some (finalhandler req err)
  | l :: rest =>
      match as_mount (layer_path l) (req_path req) with
      | None => handle lib rest fs req err
      | Some sub =>
          let continue (o : outcome) :=
            match o with
            | Respond res => Some res
            | Next => handle lib rest fs req None
            | NextErr t | Throw t =>
                match next_with t with
                | Continue => handle lib rest fs req None
                | LeaveRouter => Some (finalhandler req None)
                | Fail => handle lib rest fs req (Some t)
                end
            | Rejects _ => None
            end in
          match layer_handle l, err with
          | ErrorMw f, Some t => Some (f t)
          | ErrorMw _, None => handle lib rest fs req None
          | _, Some t => handle lib rest fs req (Some t)
          | Static root options, None =>
              continue (serve_static lib root options fs
                          (req_method req) (req_path req) sub)
          | RouterMw r, None =>
              continue (router_handle r fs (Request (req_method req) sub))
          end
      end
  end.

End Express.

(** ** nconf: the file-backed configuration store *)

Module Nconf.

Abbreviation store := (gmap string Js.value).

(** [nconf.get(key)]: a key the store does not have reads as
    [undefined]. *)
Definition get (config : store) (key : string) : Js.value :=
  default Js.JsUndefined (config !! key).

(** What [config/default.json] holds when the process starts. *)
Inductive file_state :=
| Absent
| Malformed (reason : string)
| Parsed (config : store).

(** [nconf.file(path)]: a missing file gives an empty store, a file that
    does not parse makes the call throw. *)
Definition file (f : file_state) : Js.result store :=
  match f with
  | Absent => Js.Ok ∅
  | Malformed reason =>
      Js.Throws (Js.Error_constructor Js.Error
        ("Error parsing your configuration file: " +:+ reason))
  | Parsed config => Js.Ok config
  end.

End Nconf.

(** ** middlewares/exceptions.middleware *)

Module ExceptionsMiddleware.

(** Modelled from the spec: the class [ExceptionMiddleware] and its
    method [errorMiddleware] (middlewares/exceptions.middleware is not
    among the sources; only its use in the [App] is). The spec says it is
    a catch-all error middleware that translates uncaught exceptions,
    among them the HTTP-style exceptions of exception.handler, into HTTP
    responses. So the model answers whatever reaches it with a response
    computed from it, be it an error object, with its class and its
    properties, or a primitive that was thrown; how, the spec does not
    say, and [translate] stands for it. *)
Record ExceptionMiddleware := {
  translate : Js.thrown -> Http.response
}.

Definition errorMiddleware (this : ExceptionMiddleware) (error : Js.thrown)
  : Http.response :=
  translate this error.

End ExceptionsMiddleware.

(** ** controllers/main.controller *)

Module MainController.
Import Express.

(** controllers/controllers.interface: what the [App] needs of a
    controller. *)
Record IController := {
  path : Js.value;
  router : Express.router
}.

Record t := {
  this_path : Js.value;
  this_router : Express.router;
  _filePath : string;
  _fileName : Js.value;
  _rootPath : Js.value
}.

(** [mainPageRoute = (request, response) => { response.sendFile(
    this._filePath, { index: false, dotfiles: 'allow', redirect: true }) }] *)
Definition mainPageRoute (filePath : string) : route_handler :=
  fun request fs => response_sendFile fs (Http.req_method request) filePath.

(** [initializeRoutes() { this.router.get(this.path, this.mainPageRoute) }] *)
Definition initializeRoutes (lib : library) (this : t) : Js.result t :=
  r ← router_get lib (this_path this) (mainPageRoute (_filePath this))
        (this_router this);
  mret {| this_path := this_path this; this_router := r;
          _filePath := _filePath this; _fileName := _fileName this;
          _rootPath := _rootPath this |}.

(** The constructor; [dirname] is [__dirname], the directory of the
    compiled controller module, [lib] the Express it imports. *)
Definition constructor (lib : library) (dirname : string)
    (config : Nconf.store) : Js.result t :=
  let path := Nconf.get config "MAIN_FILE_URL" in
  let router := Router in
  let filePath := Nconf.get config "MAIN_FILE_PATH" in
  let fileName := Nconf.get config "MAIN_FILE_NAME" in
  let rootPath := Nconf.get config "WEBROOT" in
  filePath ← Path.join_values [Js.JsStr dirname; filePath; fileName];
  initializeRoutes lib
    {| this_path := path; this_router := router; _filePath := filePath;
       _fileName := fileName; _rootPath := rootPath |}.

Definition as_IController (c : t) : IController :=
  {| path := this_path c; router := this_router c |}.

End MainController.

(** ** routes/main.router: the [App] class *)

Module MainRouter.
Import Express MainController ExceptionsMiddleware.

(** The TypeScript source also serves [build/web_modules]; in the
    compiled [settings/routes/main.router.js] that line is commented
    out. Both are covered. *)
Inductive build := TsSource | CompiledJs.

Record App := {
  app : application;
  _port : Js.value;
  _excpetionMiddleware : option ExceptionMiddleware;
  _mainFolder : Js.value;
  _stataicFolder : Js.value
}.

Definition set_app (a : application) (this : App) : App :=
  {| app := a; _port := _port this;
     _excpetionMiddleware := _excpetionMiddleware this;
     _mainFolder := _mainFolder this;
     _stataicFolder := _stataicFolder this |}.

(** [private async initializeDatabase(): Promise<void> { }] *)
Definition initializeDatabase (this : App) : App := this.

(** The [options] object literal of [initializeMiddlewares]. *)
Definition options_literal : static_options :=
  {| dotfiles := Some Ignore;
     etag := false;
     extensions := ["js"; "json"];
     index := [];
     maxAge := "1d";
     redirect := false;
     setHeaders := ["x-timestamp"] |}.

(** [initializeMiddlewares], with the object that its [let options = ...]
    binds as a parameter. *)
Definition initializeMiddlewares_with (object : static_options)
    (lib : library) (b : build) (config : Nconf.store) (this : App)
  : Js.result App :=
  let options := object in
  folderPath ← Path.join_values [_mainFolder this; _stataicFolder this];
  a ← app_use lib (Nconf.get config "MAIN_FILE_URL")
        (Static folderPath None) (app this);
  let a :=
    match b with
    | TsSource => app_use_root (Static "build/web_modules" None) a
    | CompiledJs => a
    end in
  mret (set_app a this).

Definition initializeMiddlewares :=
  initializeMiddlewares_with options_literal.

(** [private initializeAuthenticators(): void { }] *)
Definition initializeAuthenticators (this : App) : App := this.

(** [controllers.forEach((controller) => { this.app.use('/',
    controller.router) })] *)
Fixpoint initializeControllers (lib : library)
    (controllers : list IController) (this : App) : Js.result App :=
  match controllers with
  | [] => mret this
  | controller :: rest =>
      a ← app_use lib (Js.JsStr "/") (RouterMw (router controller))
            (app this);
      initializeControllers lib rest (set_app a this)
  end.

(** [this._excpetionMiddleware = new ExceptionMiddleware();
    this.app.use(this._excpetionMiddleware.errorMiddleware)] *)
Definition initializeErrorMiddleware (mw : ExceptionMiddleware) (this : App)
  : App :=
  {| app := app_use_root (ErrorMw (errorMiddleware mw)) (app this);
     _port := _port this;
     _excpetionMiddleware := Some mw;
     _mainFolder := _mainFolder this;
     _stataicFolder := _stataicFolder this |}.

(** [constructor(controllers: IController[])]. [lib] is the Express the
    module imports, [mw] the object that [new ExceptionMiddleware()]
    gives. *)
Definition constructor (lib : library) (b : build) (mw : ExceptionMiddleware)
    (config : Nconf.store) (controllers : list IController) : Js.result App :=
  let this :=
    {| app := express;
       _mainFolder := Nconf.get config "WEBROOT";
       _stataicFolder := Nconf.get config "STATIC_FILES";
       _port := Nconf.get config "PORT";
       _excpetionMiddleware := None |} in
  let this := initializeDatabase this in
  this ← initializeMiddlewares lib b config this;
  let this := initializeAuthenticators this in
  this ← initializeControllers lib controllers this;
  mret (initializeErrorMiddleware mw this).

End MainRouter.

(** ** app.ts: the process entry point *)

Module Server.
Import MainRouter.

(** *** The Node process around the program *)

Inductive log_entry :=
| LogError (e : Js.error)          (* console.log(err) *)
| LogListening (port : Js.value)   (* App listening on the port ... *)
| LogTerminated.                   (* Process terminated *)

(** What binding the port comes to: the listener is bound, [listen]
    throws at once (a port that is no port), or the server emits an
    [error] event later (a port in use). *)
Inductive listen_outcome :=
| Bound
| ListenThrows (e : Js.error)
| ListenFails (e : Js.error).

(** What the program finds around it. [closes_idle_connections] tells
    the two behaviours of [server.close] apart: up to Node 18 it leaves
    every open connection alone, since Node 19 it also destroys the
    connections that are idle. *)
Record env := {
  config_file : Nconf.file_state;
  dirname : string;                (* __dirname of the controller module *)
  source : build;
  express : Express.library;
  exception_middleware : ExceptionsMiddleware.ExceptionMiddleware;
  bind_port : Js.value -> listen_outcome;
  closes_idle_connections : bool
}.

(** An [http.Server]: whether it accepts connections, its open
    connections, and the callbacks waiting for its [close] event. An
    open connection is in flight ([connections]: it has not yet
    completed a request, or it waits for a response) or idle ([idle]:
    kept alive after a response, with no request under way). *)
Record http_server := {
  served : App;
  library : Express.library;
  closes_idle : bool;
  listening : bool;
  connections : nat;
  idle : nat;
  close_callbacks : nat;
  failed : option Js.error
}.

Definition set_connections (in_flight kept_alive : nat) (s : http_server)
  : http_server :=
  {| served := served s; library := library s; closes_idle := closes_idle s;
     listening := listening s;
     connections := in_flight; idle := kept_alive;
     close_callbacks := close_callbacks s; failed := failed s |}.

Record process := {
  console : list log_entry;
  responses : list Http.response;   (* the responses sent so far *)
  server : option http_server;
  sigint_listeners : nat;
  uncaught : option Js.error;
  exit_code : option Z
}.

Definition start : process :=
  {| console := []; responses := []; server := None; sigint_listeners := 0;
     uncaught := None; exit_code := None |}.

Definition console_log (l : log_entry) (p : process) : process :=
  {| console := (console p ++ [l])%list; responses := responses p;
     server := server p;
     sigint_listeners := sigint_listeners p;
     uncaught := uncaught p; exit_code := exit_code p |}.

Definition set_server (s : http_server) (p : process) : process :=
  {| console := console p; responses := responses p; server := Some s;
     sigint_listeners := sigint_listeners p;
     uncaught := uncaught p; exit_code := exit_code p |}.

(** [process.exit(code)] *)
Definition process_exit (code : Z) (p : process) : process :=
  {| console := console p; responses := responses p; server := server p;
     sigint_listeners := sigint_listeners p;
     uncaught := uncaught p; exit_code := Some code |}.

(** An exception nobody catches ends the process with code 1. *)
Definition crash (e : Js.error) (p : process) : process :=
  {| console := console p; responses := responses p; server := server p;
     sigint_listeners := sigint_listeners p;
     uncaught := Some e; exit_code := Some 1 |}.

(** Code that changes the process and may throw. *)
Definition M (A : Type) : Type := process -> Js.result A * process.

Definition ret {A} (a : A) : M A := fun p => (Js.Ok a, p).

Definition bind {A B} (m : M A) (k : A -> M B) : M B :=
  fun p =>
    match m p with
    | (Js.Ok a, p') => k a p'
    | (Js.Throws e, p') => (Js.Throws e, p')
    end.

Definition lift {A} (r : Js.result A) : M A := fun p => (r, p).

(** [try { body } catch (err) { handler(err) }] *)
Definition try_catch {A} (body : M A) (handler : Js.error -> M A) : M A :=
  fun p =>
    match body p with
    | (Js.Ok a, p') => (Js.Ok a, p')
    | (Js.Throws e, p') => handler e p'
    end.

(** *** [App.listen]

    [listen() { return this.app.listen(this._port, () => { console.log(
    `App listening on the port ${this._port}`) }) }] *)
Definition listen (e : env) (this : App) : M http_server :=
  fun p =>
    let made failure :=
      {| served := this; library := express e;
         closes_idle := closes_idle_connections e;
         listening := true; connections := 0; idle := 0;
         close_callbacks := 0; failed := failure |} in
    match bind_port e (_port this) with
    | Bound => (Js.Ok (made None), set_server (made None) p)
    | ListenThrows err => (Js.Throws err, p)
    | ListenFails err =>
        (Js.Ok (made (Some err)), set_server (made (Some err)) p)
    end.

(** [process.on('SIGINT', async () => { server.close(async () => {
    console.log('Process terminated'); process.exit(0) }) })] *)
Definition process_on_SIGINT (closes : http_server) : M unit :=
  fun p =>
    (Js.Ok tt,
     {| console := console p; responses := responses p;
        server := server p;
        sigint_listeners := S (sigint_listeners p);
        uncaught := uncaught p; exit_code := exit_code p |}).


(** *** [init] *)

(** [new App([new mainController()])] *)
Definition new_App (e : env) (config : Nconf.store) : Js.result App :=
  controller ← MainController.constructor (express e) (dirname e) config;
  MainRouter.constructor (express e) (source e) (exception_middleware e)
    config [MainController.as_IController controller].

(** The body of the [try] block. *)
Definition init_try (e : env) (config : Nconf.store) : M unit :=
  bind (lift (new_App e config)) (fun app =>
  bind (listen e app) (fun server =>
  process_on_SIGINT server)).

(** [async function init(): Promise<void>]: the [try] block, its
    [catch (err) { console.log(err) }] and the empty [finally]. *)
Definition init (e : env) (config : Nconf.store) : M unit :=
  try_catch (init_try e config)
    (fun err p => (Js.Ok tt, console_log (LogError err) p)).

(** Once the module has run, the event loop takes over: a failed bind
    surfaces as an [error] event that has no listener, a bound server
    runs its listening callback, and a process with no server has
    nothing left to wait for and ends with code 0. *)
Definition first_tick (p : process) : process :=
  match server p with
  | None => process_exit 0 p
  | Some s =>
      match failed s with
      | Some err => crash err p
      | None => console_log (LogListening (_port (served s))) p
      end
  end.

(** The module, top to bottom: [nconf.file('config/default.json')],
    [process.env.DEBUG = nconf.get('DEBUG')], the imports, [init()]. *)
Definition main (e : env) : process :=
  match Nconf.file (config_file e) with
  | Js.Throws err => crash err start
  | Js.Ok config =>
      match init e config start with
      | (Js.Ok _, p) => first_tick p
      | (Js.Throws err, p) => crash err p
      end
  end.

(** *** The running process *)

(** The application the server dispatches requests to. *)
Definition respond (lib : Express.library) (a : App) (fs : Fs.t)
    (req : Http.request) : option Http.response :=
  Express.handle lib (app a) fs req None.

Inductive event :=
| SIGINT                                   (* the signal is delivered *)
| Connect                                  (* a client tries to connect *)
| Serve (fs : Fs.t) (req : Http.request)   (* a request arrives on a
                                              connection in flight *)
| ServeIdle (fs : Fs.t) (req : Http.request)
                                           (* a request arrives on an
                                              idle connection *)
| Finish                                   (* a connection in flight ends *)
| FinishIdle.                              (* an idle connection ends, by
                                              the client or by the
                                              keep-alive timeout *)

Definition send_response (r : Http.response) (p : process) : process :=
  {| console := console p; responses := (responses p ++ [r])%list;
     server := server p; sigint_listeners := sigint_listeners p;
     uncaught := uncaught p; exit_code := exit_code p |}.

(** The server emits [close] when it no longer listens and its last
    connection has ended; the callbacks given to [server.close] run then:
    [console.log('Process terminated'); process.exit(0)]. *)
Definition emit_close_if_drained (p : process) : process :=
  match server p with
  | Some s =>
      if negb (listening s) && Nat.eqb (connections s + idle s) 0
         && negb (Nat.eqb (close_callbacks s) 0)
      then process_exit 0 (console_log LogTerminated p)
      else p
  | None => p
  end.

(** [server.close(callback)]: stop listening, keep the connections in
    flight (and, where Node does not close them, the idle ones), call
    back on [close]. *)
Definition server_close (p : process) : process :=
  match server p with
  | Some s =>
      emit_close_if_drained
        (set_server
           {| served := served s; library := library s;
              closes_idle := closes_idle s;
              listening := false;
              connections := connections s;
              idle := if closes_idle s then 0%nat else idle s;
              close_callbacks := S (close_callbacks s);
              failed := failed s |} p)
  | None => p
  end.

(** One event. A connection whose request has been answered is kept
    alive, idle. A request that the application leaves unanswered stays
    unanswered, and its connection in flight; what Node does about the
    rejected promise behind it is not modelled. *)
Definition step (p : process) (ev : event) : process :=
  match exit_code p with
  | Some _ => p
  | None =>
      match ev with
      | SIGINT =>
          if Nat.eqb (sigint_listeners p) 0
          then process_exit 130 p        (* the signal's default action *)
          else server_close p
      | Connect =>
          match server p with
          | Some s =>
              if listening s then
                set_server (set_connections (S (connections s)) (idle s) s) p
              else p
          | None => p
          end
      | Serve fs req =>
          match server p with
          | Some s =>
              match connections s with
              | O => p
              | S n =>
                  match respond (library s) (served s) fs req with
                  | Some r =>
                      send_response r
                        (set_server (set_connections n (S (idle s)) s) p)
                  | None => p
                  end
              end
          | None => p
          end
      | ServeIdle fs req =>
          match server p with
          | Some s =>
              match idle s with
              | O => p
              | S n =>
                  match respond (library s) (served s) fs req with
                  | Some r => send_response r p
                  | None =>
                      set_server (set_connections (S (connections s)) n s) p
                  end
              end
          | None => p
          end
      | Finish =>
          match server p with
          | Some s =>
              match connections s with
              | O => p
              | S n =>
                  emit_close_if_drained
                    (set_server (set_connections n (idle s) s) p)
              end
          | None => p
          end
      | FinishIdle =>
          match server p with
          | Some s =>
              match idle s with
              | O => p
              | S n =>
                  emit_close_if_drained
                    (set_server (set_connections (connections s) n s) p)
              end
          | None => p
          end
      end
  end.

Definition run (p : process) (trace : list event) : process :=
  fold_left step trace p.

(** The connections in flight, and all the open ones. *)
Definition in_flight (p : process) : nat :=
  match server p with Some s => connections s | None => 0%nat end.

Definition open_connections (p : process) : nat :=
  match server p with
  | Some s => (connections s + idle s)%nat
  | None => 0%nat
  end.

Definition accepting (p : process) : bool :=
  match exit_code p, server p with
  | None, Some s => listening s
  | _, _ => false
  end.

(** The events by which a connection in flight stops being one: it ends,
    or its request is answered. *)
Definition settles (ev : event) : bool :=
  match ev with Finish | Serve _ _ => true | _ => false end.

(** How many connections in flight a trace of events can settle. *)
Definition settled (trace : list event) : nat :=
  List.length (List.filter settles trace).

(** What the program answers to a request, from its configuration: the
    [App] that [init] builds, asked directly. *)
Definition serve (e : env) (config : Nconf.store) (fs : Fs.t)
    (req : Http.request) : Js.result (option Http.response) :=
  a ← new_App e config;
  mret (respond (express e) a fs req).

End Server.

(** ** A deployment to evaluate the program on *)

Module Deployment.
Import Http.

Definition config : Nconf.store :=
  list_to_map
    [("WEBROOT", Js.JsStr "settings");
     ("STATIC_FILES", Js.JsStr "public");
     ("PORT", Js.JsNum 7000);
     ("MAIN_FILE_URL", Js.JsStr "/");
     ("MAIN_FILE_PATH", Js.JsStr "../views");
     ("MAIN_FILE_NAME", Js.JsStr "index.html")].

(** The same configuration with its web root left out. *)
Definition config_without_webroot : Nconf.store := delete "WEBROOT" config.

Definition main_page : string := "<html>main</html>".
Definition static_page : string := "<html>static</html>".

Definition files : Fs.t :=
  Fs.Make "/srv/app"
    (list_to_map
       [("/srv/app/settings/public", Fs.Dir);
        ("/srv/app/settings/public/css", Fs.Dir);
        ("/srv/app/settings/public/css/site.css", Fs.File "body{}");
        ("/srv/app/settings/public/.env", Fs.File "SECRET");
        ("/srv/app/settings/views", Fs.Dir);
        ("/srv/app/settings/views/index.html", Fs.File main_page)]).

(** The same tree with an [index.html] in the static directory. *)
Definition files_with_static_index : Fs.t :=
  Fs.Make "/srv/app"
    (<["/srv/app/settings/public/index.html" := Fs.File static_page]>
       (Fs.nodes files)).

(** One way the missing middleware may turn what reaches it into a
    response: from the status and the message of an error object. *)
Definition middleware : ExceptionsMiddleware.ExceptionMiddleware :=
  {| ExceptionsMiddleware.translate := fun error =>
       match error with
       | Js.Object e =>
           Response
             (match Js.get e "status" with Js.JsNum n => n | _ => 500 end)
             (match Js.get e "message" with Js.JsStr s => s | _ => "" end)
       | Js.Primitive _ => Response 500 ""
       end |}.

(** The deployment asks its Express for nothing outside the modelled
    part: its paths are literal and its requests plain. This one refuses
    everything else. *)
Definition library : Express.library :=
  {| Express.pathRegexp := fun _ =>
       Js.Throws (Js.Error_constructor Js.SyntaxError
                    "Invalid regular expression");
     Express.decodeURIComponent := fun _ => None |}.

(** The deployment on a Node whose [server.close] does, or does not,
    close idle connections. *)
Definition env_on (closes_idle : bool) (file : Nconf.file_state)
  : Server.env :=
  {| Server.config_file := file;
     Server.dirname := "/srv/app/settings/controllers";
     Server.source := MainRouter.CompiledJs;
     Server.express := library;
     Server.exception_middleware := middleware;
     Server.bind_port := fun _ => Server.Bound;
     Server.closes_idle_connections := closes_idle |}.

Definition env : Nconf.file_state -> Server.env := env_on true.

(** A controller whose one route handler throws. *)
Definition boom : Js.error := Js.Error_constructor Js.Error "boom".

Definition throwing_controller : MainController.IController :=
  {| MainController.path := Js.JsStr "/boom";
     MainController.router :=
       [Express.Route GET (Express.literal "/boom")
          (fun _ _ => Express.Throw (Js.Object boom))] |}.



End Deployment.

(** * The vocabulary of the properties *)

(** ** The stack of a constructed [App] *)

(** The layers [initializeMiddlewares] adds: the static middleware of
    [folder] at [url] and, in the TypeScript source, the one of
    [build/web_modules]. *)
Definition static_layers (b : MainRouter.build) (url folder : string)
  : list Express.layer :=
  Express.Layer (Express.literal url) (Express.Static folder None) ::
  match b with
  | MainRouter.TsSource =>
      [Express.Layer (Express.literal "/")
         (Express.Static "build/web_modules" None)]
  | MainRouter.CompiledJs => []
  end.

Definition controller_layer (c : MainController.IController) : Express.layer :=
  Express.Layer (Express.literal "/")
    (Express.RouterMw (MainController.router c)).

Definition error_layer (mw : ExceptionsMiddleware.ExceptionMiddleware)
  : Express.layer :=
  Express.Layer (Express.literal "/")
    (Express.ErrorMw (ExceptionsMiddleware.errorMiddleware mw)).

(** A layer passes the request on: it is not mounted on the request's
    path, or its handler calls [next()]. Error middleware always pass a
    request that carries no error. *)
Definition layer_passes (lib : Express.library) (fs : Fs.t)
    (req : Http.request) (l : Express.layer) : Prop :=
  match Express.as_mount (Express.layer_path l) (Http.req_path req) with
  | None => True
  | Some sub =>
      match Express.layer_handle l with
      | Express.Static root options =>
          Express.serve_static lib root options fs
            (Http.req_method req) (Http.req_path req) sub
          = Express.Next
      | Express.RouterMw r =>
          Express.router_handle r fs (Http.Request (Http.req_method req) sub)
          = Express.Next
      | Express.ErrorMw _ => True
      end
  end.


(** ** The settings of a deployment *)

(** The strings the program reads from its configuration. *)
Record settings := Settings {
  webroot : string;
  static_files : string;
  main_url : string;
  main_path : string;
  main_name : string
}.

(** [config] gives the five strings, and the main URL is a literal path. *)
Definition reads (config : Nconf.store) (s : settings) : Prop :=
  Nconf.get config "WEBROOT" = Js.JsStr (webroot s)
  /\ Nconf.get config "STATIC_FILES" = Js.JsStr (static_files s)
  /\ Nconf.get config "MAIN_FILE_URL" = Js.JsStr (main_url s)
  /\ Nconf.get config "MAIN_FILE_PATH" = Js.JsStr (main_path s)
  /\ Nconf.get config "MAIN_FILE_NAME" = Js.JsStr (main_name s)
  /\ Express.literal_path (main_url s) = true.

(** The folder the static middleware serves and the file the controller
    sends. *)
Definition static_folder (s : settings) : string :=
  Path.join [webroot s; static_files s].

Definition main_file (e : Server.env) (s : settings) : string :=
  Path.join [Server.dirname e; main_path s; main_name s].

Definition main_layer (e : Server.env) (s : settings) : Express.layer :=
  Express.Layer (Express.literal "/")
    (Express.RouterMw
       [Express.Route Http.GET (Express.literal (main_url s))
          (MainController.mainPageRoute (main_file e s))]).

(** The deployment's settings, as [Deployment.config] gives them. *)
Definition deployed : settings :=
  Settings "settings" "public" "/" "../views" "index.html".

(** ** Paths below the static mount *)






(** ** States of the process *)

(** What holds of every process that is still running: [init] got as far
    as registering the SIGINT handler, so there is a server, and a server
    that no longer listens is waiting for connections to end. *)
Definition running_inv (p : Server.process) : Prop :=
  Server.exit_code p = None ->
  exists s,
    Server.server p = Some s
    /\ Server.sigint_listeners p <> 0%nat
    /\ (Server.listening s = false ->
        Server.close_callbacks s <> 0%nat
        /\ (Server.connections s + Server.idle s)%nat <> 0%nat).

(** A process whose server has been closed: it listens no more, and the
    process runs for as long as a connection is open and has exited with
    code 0 when none is. *)
Definition closed (p : Server.process) : Prop :=
  exists s,
    Server.server p = Some s
    /\ Server.listening s = false
    /\ Server.sigint_listeners p <> 0%nat
    /\ Server.close_callbacks s <> 0%nat
    /\ ((Server.exit_code p = None
         /\ (Server.connections s + Server.idle s)%nat <> 0%nat)
        \/ (Server.exit_code p = Some 0
            /\ (Server.connections s + Server.idle s)%nat = 0%nat)).

(** * Properties *)

(** ** The exception taxonomy *)

(** C9. The [HttpException] constructor discards its status argument: for
    every status and message the constructed error has the message as its
    only own property, so reading [status] gives [undefined] and the object
    is the same whatever status was passed. Every subclass passes 404, and
    that value has no effect on the object it constructs. *)
Theorem HttpException_discards_status (status : Z) (message : string) :
  Js.props (Exceptions.new_HttpException status message)
    = {[ "message" := Js.JsStr message ]}
  /\ Js.get (Exceptions.new_HttpException status message) "message"
    = Js.JsStr message
  /\ Js.get (Exceptions.new_HttpException status message) "status"
    = Js.JsUndefined
  /\ (forall status',
        Exceptions.new_HttpException status' message
        = Exceptions.new_HttpException status message)
  /\ (forall c arg,
        fst (Exceptions.super_arguments c arg) = 404
        /\ Js.get (Exceptions.new_exception c arg) "status" = Js.JsUndefined
        /\ forall status',
             Exceptions.HttpException_constructor (Exceptions.class_of c)
               status' (snd (Exceptions.super_arguments c arg))
             = Exceptions.new_exception c arg).
Proof.
  repeat split; try reflexivity; by destruct c.
Qed.

(** ** The composition of the [App] *)

Section Composition.
Import Express MainController MainRouter ExceptionsMiddleware.

Variable lib : library.
Variable b : build.
Variable mw : ExceptionMiddleware.
Variable config : Nconf.store.

(** A literal path compiles to its own pattern, whatever the library. *)
Lemma compile_literal url :
  literal_path url = true -> compile lib (Js.JsStr url) = Js.Ok (literal url).
Proof. unfold compile. by intros ->. Qed.

Lemma app_use_literal url fn stack :
  literal_path url = true ->
  app_use lib (Js.JsStr url) fn stack
  = Js.Ok (stack ++ [Layer (literal url) fn])%list.
Proof. intros Hlit. unfold app_use. by rewrite (compile_literal url Hlit). Qed.

Lemma initializeControllers_appends controllers : forall this,
  initializeControllers lib controllers this
  = Js.Ok (set_app (app this ++ map controller_layer controllers)%list this).
Proof.
  induction controllers as [|c cs IH]; intros this;
    cbn [initializeControllers map].
  - rewrite app_nil_r. by destruct this.
  - rewrite (app_use_literal "/" _ _ eq_refl). cbn. rewrite IH. cbn.
    by rewrite <- app_assoc.
Qed.

Lemma initializeMiddlewares_with_ok options this webroot static url :
  _mainFolder this = Js.JsStr webroot ->
  _stataicFolder this = Js.JsStr static ->
  Nconf.get config "MAIN_FILE_URL" = Js.JsStr url ->
  literal_path url = true ->
  initializeMiddlewares_with options lib b config this
  = Js.Ok (set_app
             (app this ++ static_layers b url (Path.join [webroot; static]))%list
             this).
Proof.
  intros Hw Hs Hu Hlit. unfold initializeMiddlewares_with.
  rewrite Hw, Hs, Hu. cbn -[app_use].
  rewrite (app_use_literal url _ _ Hlit). cbn.
  unfold static_layers, app_use_root.
  destruct b; cbn; by rewrite <- ?app_assoc.
Qed.

(** The stack of a constructed [App], for a configuration that gives the
    two folder names and a literal main URL. *)
Lemma constructor_stack controllers webroot static url :
  Nconf.get config "WEBROOT" = Js.JsStr webroot ->
  Nconf.get config "STATIC_FILES" = Js.JsStr static ->
  Nconf.get config "MAIN_FILE_URL" = Js.JsStr url ->
  literal_path url = true ->
  exists a,
    constructor lib b mw config controllers = Js.Ok a
    /\ app a = (static_layers b url (Path.join [webroot; static])
                ++ map controller_layer controllers
                ++ [error_layer mw])%list.
Proof.
  intros Hw Hs Hu Hlit. unfold constructor, initializeMiddlewares.
  unfold initializeDatabase, initializeAuthenticators.
  erewrite initializeMiddlewares_with_ok by (cbn; eassumption).
  cbn. rewrite initializeControllers_appends. cbn.
  eexists; split; [reflexivity|]. cbn. unfold app_use_root.
  by rewrite <- app_assoc.
Qed.

(** Whenever the constructor returns, the stack is made of one static
    layer at whatever pattern the main URL compiled to, the second static
    layer of the TypeScript source, the controllers and the error
    layer. *)
Lemma constructor_layers controllers a :
  constructor lib b mw config controllers = Js.Ok a ->
  exists m folder,
    app a
    = (Layer m (Static folder None)
       :: match b with
          | TsSource => [Layer (literal "/") (Static "build/web_modules" None)]
          | CompiledJs => []
          end
       ++ map controller_layer controllers ++ [error_layer mw])%list.
Proof.
  unfold constructor, initializeMiddlewares, initializeMiddlewares_with,
    initializeDatabase, initializeAuthenticators, app_use.
  cbn.
  destruct (Path.join_values _) as [folder|]; [cbn|discriminate].
  destruct (compile lib _) as [m|]; [cbn|discriminate].
  rewrite initializeControllers_appends. cbn. intros [= <-]. cbn.
  exists m, folder. unfold app_use_root.
  destruct b; cbn; by rewrite <- ?app_assoc.
Qed.

End Composition.

(** C10. The [options] object of [initializeMiddlewares] is never passed
    to [express.static]: whatever object is bound to [options], the method
    does the same, and every static middleware in the stack of a
    constructed [App] was made from a folder path alone, so it serves with
    Express's defaults. *)
Theorem static_options_never_passed
    (lib : Express.library) (b : MainRouter.build)
    (mw : ExceptionsMiddleware.ExceptionMiddleware)
    (config : Nconf.store) :
  (forall options options' this,
     MainRouter.initializeMiddlewares_with options lib b config this
     = MainRouter.initializeMiddlewares_with options' lib b config this)
  /\ (forall controllers a,
        MainRouter.constructor lib b mw config controllers = Js.Ok a ->
        forall l root o,
          In l (MainRouter.app a) ->
          Express.layer_handle l = Express.Static root o ->
          o = None
          /\ forall fs m url rest,
               Express.serve_static lib root o fs m url rest
               = Express.serve_static lib root
                   (Some Express.default_static_options) fs m url rest).
Proof.
  split; [reflexivity|].
  intros controllers a Ha l root o Hl Hstatic.
  assert (o = None) as ->; [|by split].
  destruct (constructor_layers lib b mw config controllers a Ha)
    as (m & folder & Hstack).
  rewrite Hstack in Hl. cbn in Hl.
  rewrite !in_app_iff in Hl. cbn in Hl.
  destruct Hl as [Hl|[Hl|[Hl|Hl]]].
  - subst l. cbn in Hstatic. congruence.
  - destruct b; cbn in Hl; intuition subst; cbn in Hstatic; congruence.
  - apply in_map_iff in Hl as (c & <- & _). discriminate.
  - destruct Hl as [<-|[]]. discriminate.
Qed.

(** The theorem at the deployment's configuration, with one controller. *)
Lemma static_options_never_passed_witness :
  exists a,
    MainRouter.constructor Deployment.library MainRouter.TsSource
      Deployment.middleware
      Deployment.config [Deployment.throwing_controller] = Js.Ok a
    /\ forall l root o,
         In l (MainRouter.app a) ->
         Express.layer_handle l = Express.Static root o -> o = None.
Proof.
  eexists. split; [reflexivity|].
  intros l root o Hl Hs.
  exact (proj1 (proj2 (static_options_never_passed Deployment.library
           MainRouter.TsSource Deployment.middleware Deployment.config)
           [Deployment.throwing_controller] _ eq_refl l root o Hl Hs)).
Defined.

(** C5. For every list of controllers and every configuration whose main
    URL is a literal path, the constructor composes the application in one
    fixed order: the database step changes nothing (nor does the
    authenticators step), the static middleware of the configured folder
    is attached first, the routers of the controllers follow in the order
    of the list, and the error middleware comes after them. *)
Theorem constructor_composes_in_order
    (lib : Express.library) (b : MainRouter.build)
    (mw : ExceptionsMiddleware.ExceptionMiddleware)
    (config : Nconf.store) (controllers : list MainController.IController)
    (webroot static url : string) :
  Nconf.get config "WEBROOT" = Js.JsStr webroot ->
  Nconf.get config "STATIC_FILES" = Js.JsStr static ->
  Nconf.get config "MAIN_FILE_URL" = Js.JsStr url ->
  Express.literal_path url = true ->
  (forall this, MainRouter.initializeDatabase this = this)
  /\ (forall this, MainRouter.initializeAuthenticators this = this)
  /\ exists a,
       MainRouter.constructor lib b mw config controllers = Js.Ok a
       /\ MainRouter.app a
          = (static_layers b url (Path.join [webroot; static])
             ++ map controller_layer controllers
             ++ [error_layer mw])%list.
Proof.
  intros Hw Hs Hu Hlit. split; [reflexivity|]. split; [reflexivity|].
  by apply constructor_stack.
Qed.

Lemma constructor_composes_in_order_witness :
  exists a,
    MainRouter.constructor Deployment.library MainRouter.TsSource
      Deployment.middleware
      Deployment.config [Deployment.throwing_controller] = Js.Ok a
    /\ MainRouter.app a
       = [Express.Layer (Express.literal "/")
            (Express.Static "settings/public" None);
          Express.Layer (Express.literal "/")
            (Express.Static "build/web_modules" None);
          Express.Layer (Express.literal "/")
            (Express.RouterMw
               (MainController.router Deployment.throwing_controller));
          Express.Layer (Express.literal "/")
            (Express.ErrorMw
               (ExceptionsMiddleware.errorMiddleware Deployment.middleware))].
Proof.
  exact (proj2 (proj2 (constructor_composes_in_order Deployment.library
           MainRouter.TsSource
           Deployment.middleware Deployment.config
           [Deployment.throwing_controller] "settings" "public" "/"
           eq_refl eq_refl eq_refl eq_refl))).
Defined.

(** C6. After construction, for every list of controllers, the error
    middleware is the last layer of the stack, mounted at the root so that
    it sees every request, and it is the only error middleware in the stack:
    nothing is attached after it. *)
Theorem error_middleware_is_last
    (lib : Express.library) (b : MainRouter.build)
    (mw : ExceptionsMiddleware.ExceptionMiddleware)
    (config : Nconf.store) (controllers : list MainController.IController)
    (a : MainRouter.App) :
  MainRouter.constructor lib b mw config controllers = Js.Ok a ->
  exists before,
    MainRouter.app a = (before ++ [error_layer mw])%list
    /\ List.last (MainRouter.app a) (error_layer mw) = error_layer mw
    /\ length (MainRouter.app a) = S (length before)
    /\ forall l f, In l before -> Express.layer_handle l <> Express.ErrorMw f.
Proof.
  intros Ha.
  destruct (constructor_layers lib b mw config controllers a Ha)
    as (m & folder & Hstack).
  set (before :=
         (Express.Layer m (Express.Static folder None)
          :: match b with
             | MainRouter.TsSource =>
                 [Express.Layer (Express.literal "/")
                    (Express.Static "build/web_modules" None)]
             | MainRouter.CompiledJs => []
             end
          ++ map controller_layer controllers)%list).
  assert (MainRouter.app a = (before ++ [error_layer mw])%list) as ->.
  { rewrite Hstack. unfold before.
    by rewrite <- app_comm_cons, <- app_assoc. }
  exists before. split; [reflexivity|].
  split; [by rewrite last_last|].
  split; [rewrite length_app; cbn [length]; lia|].
  unfold before. intros l f Hl. cbn in Hl. rewrite in_app_iff in Hl.
  destruct Hl as [Hl|[Hl|Hl]].
  - subst l. discriminate.
  - destruct b; cbn in Hl; intuition subst; discriminate.
  - apply in_map_iff in Hl as (c & <- & _). discriminate.
Qed.

Lemma error_middleware_is_last_witness :
  exists a before,
    MainRouter.constructor Deployment.library MainRouter.CompiledJs
      Deployment.middleware
      Deployment.config [Deployment.throwing_controller] = Js.Ok a
    /\ MainRouter.app a = (before ++ [error_layer Deployment.middleware])%list.
Proof.
  eexists.
  destruct (error_middleware_is_last Deployment.library MainRouter.CompiledJs
              Deployment.middleware Deployment.config
              [Deployment.throwing_controller] _ eq_refl)
    as (before & Happ & _).
  exists before. split; [reflexivity|exact Happ].
Defined.

(** ** Facts about strings and paths *)

Section StringFacts.

Lemma append_cons c s t : String c s +:+ t = String c (s +:+ t).
Proof. reflexivity. Qed.

Lemma lower_length s : String.length (Express.lower s) = String.length s.
Proof. induction s as [|c s IH]; cbn; congruence. Qed.

Lemma lower_app s t :
  Express.lower (s +:+ t) = Express.lower s +:+ Express.lower t.
Proof.
  induction s as [|c s IH]; [done|].
  rewrite append_cons. cbn. by rewrite IH.
Qed.

Lemma lower_empty s : Express.lower s = "" -> s = "".
Proof. by destruct s. Qed.

Lemma prefix_app s t : String.prefix s (s +:+ t) = true.
Proof.
  induction s as [|c s IH]; [by destruct t|].
  rewrite append_cons. cbn.
  destruct (ascii_dec c c); [exact IH|congruence].
Qed.

Lemma prefix_refl s : String.prefix s s = true.
Proof.
  induction s as [|c s IH]; cbn; [done|].
  destruct (ascii_dec c c); [exact IH|congruence].
Qed.

Lemma drop_chars_app s t :
  Express.drop_chars (String.length s) (s +:+ t) = t.
Proof. induction s as [|c s IH]; [by destruct t|exact IH]. Qed.

Lemma drop_chars_all s : Express.drop_chars (String.length s) s = "".
Proof. induction s as [|c s IH]; cbn; [done|exact IH]. Qed.

Lemma drop_chars_length n : forall s,
  String.length (Express.drop_chars n s) = (String.length s - n)%nat.
Proof.
  induction n as [|n IH]; intros [|c s]; cbn; first [done | apply IH].
Qed.

Lemma substring_app s t : String.substring 0 (String.length s) (s +:+ t) = s.
Proof.
  induction s as [|c s IH]; [by destruct t|].
  rewrite append_cons. cbn. by rewrite IH.
Qed.

Lemma app_length s t :
  String.length (s +:+ t) = (String.length s + String.length t)%nat.
Proof.
  induction s as [|c s IH]; [done|].
  rewrite append_cons. cbn. by rewrite IH.
Qed.

(** A string that ends with [c] is some string followed by [c]. *)
Lemma ends_with_inv c s :
  Path.ends_with c s = true -> exists s', s = s' +:+ String c "".
Proof.
  induction s as [|d s IH]; cbn; [discriminate|].
  destruct s as [|d' s''].
  - intros H. apply Ascii.eqb_eq in H as ->. by exists "".
  - intros H. destruct (IH H) as [s' ->]. by exists (String d s').
Qed.

Lemma ends_with_app c s : Path.ends_with c (s +:+ String c "") = true.
Proof.
  induction s as [|d s IH]; [apply Ascii.eqb_refl|].
  rewrite append_cons. cbn.
  destruct (s +:+ String c "") eqn:E; [by destruct s|exact IH].
Qed.

Lemma pattern_stem_slash s :
  Express.pattern_stem (s +:+ "/") = Express.lower s.
Proof.
  unfold Express.pattern_stem, Path.sep. rewrite (ends_with_app "/" s).
  rewrite app_length. cbn.
  replace (String.length s + 1 - 1)%nat with (String.length s) by lia.
  by rewrite substring_app.
Qed.

Lemma pattern_stem_no_slash s :
  Path.ends_with Path.sep s = false ->
  Express.pattern_stem s = Express.lower s.
Proof. unfold Express.pattern_stem. by intros ->. Qed.

(** A request for the mount path itself is inside the mount, at its
    root. *)
Lemma mount_strip_self url :
  url <> "" -> Express.mount_strip url url = Some "/".
Proof.
  intros Hne. unfold Express.mount_strip.
  destruct (Path.ends_with Path.sep url) eqn:Hend.
  - apply ends_with_inv in Hend as [s ->].
    change (String Path.sep "") with "/" in *.
    rewrite pattern_stem_slash.
    destruct (String.eqb (Express.lower s) "") eqn:Hs.
    + apply String.eqb_eq, lower_empty in Hs as ->. reflexivity.
    + rewrite lower_app, prefix_app.
      rewrite lower_length, drop_chars_app. reflexivity.
  - rewrite pattern_stem_no_slash by done.
    destruct (String.eqb (Express.lower url) "") eqn:Hs.
    + apply String.eqb_eq, lower_empty in Hs. done.
    + rewrite prefix_refl, lower_length, drop_chars_all. reflexivity.
Qed.


(** A route matches a request for its own path. *)
Lemma route_match_self url : Express.route_match url url = true.
Proof.
  unfold Express.route_match.
  destruct (Path.ends_with Path.sep url) eqn:Hend.
  - apply ends_with_inv in Hend as [s ->].
    change (String Path.sep "") with "/" in *.
    rewrite pattern_stem_slash, lower_app.
    change (Express.lower "/") with "/".
    rewrite (String.eqb_refl (Express.lower s +:+ "/")).
    apply orb_true_r.
  - rewrite pattern_stem_no_slash by done.
    by rewrite String.eqb_refl.
Qed.






End StringFacts.

Section PathFacts.












End PathFacts.

(** ** Dispatch down the stack of the [App] *)

Section Dispatch.
Import Express Http.

Variable lib : library.
Variable fs : Fs.t.
Variable req : request.


Lemma handle_passes before rest :
  Forall (layer_passes lib fs req) before ->
  handle lib (before ++ rest)%list fs req None = handle lib rest fs req None.
Proof.
  induction 1 as [|l before Hl _ IH]; [reflexivity|].
  cbn. unfold layer_passes in Hl.
  destruct (as_mount (layer_path l) (req_path req)); [|exact IH].
  destruct (layer_handle l); [by rewrite Hl|by rewrite Hl|exact IH].
Qed.






Lemma handle_router r rest :
  handle lib (Layer (literal "/") (RouterMw r) :: rest) fs req None
  = match router_handle r fs req with
    | Respond res => Some res
    | Next => handle lib rest fs req None
    | NextErr t | Throw t =>
        match next_with t with
        | Continue => handle lib rest fs req None
        | LeaveRouter => Some (finalhandler req None)
        | Fail => handle lib rest fs req (Some t)
        end
    | Rejects _ => None
    end.
Proof. by destruct req. Qed.

End Dispatch.


(** The stack of the application that [init] builds. *)
Lemma new_App_stack e config s :
  reads config s ->
  exists a,
    Server.new_App e config = Js.Ok a
    /\ MainRouter.app a
       = (static_layers (Server.source e) (main_url s) (static_folder s)
          ++ [main_layer e s; error_layer (Server.exception_middleware e)])%list.
Proof.
  intros (Hw & Hs & Hu & Hp & Hn & Hlit).
  unfold Server.new_App, MainController.constructor.
  rewrite Hp, Hn, Hu. cbn -[Express.router_get].
  unfold MainController.initializeRoutes, Express.router_get.
  cbn [MainController.this_path MainController.this_router
       MainController._filePath MainController._fileName
       MainController._rootPath].
  rewrite (compile_literal (Server.express e) (main_url s) Hlit). cbn.
  destruct (constructor_stack (Server.express e) (Server.source e)
              (Server.exception_middleware e) config
              [MainController.as_IController
                 {| MainController.this_path := Js.JsStr (main_url s);
                    MainController.this_router :=
                      [Express.Route Http.GET (Express.literal (main_url s))
                         (MainController.mainPageRoute (main_file e s))];
                    MainController._filePath := main_file e s;
                    MainController._fileName := Js.JsStr (main_name s);
                    MainController._rootPath := Nconf.get config "WEBROOT" |}]
              _ _ _ Hw Hs Hu Hlit) as (a & Ha & Hstack).
  exists a. split; [exact Ha|exact Hstack].
Qed.

(** What the program answers is what that stack answers. *)
Lemma serve_stack e config s fs req :
  reads config s ->
  Server.serve e config fs req
  = Js.Ok (Express.handle (Server.express e)
             (static_layers (Server.source e) (main_url s) (static_folder s)
              ++ [main_layer e s;
                  error_layer (Server.exception_middleware e)])%list
             fs req None).
Proof.
  intros Hreads.
  destruct (new_App_stack e config s Hreads) as (a & Ha & Hstack).
  unfold Server.serve. rewrite Ha. cbn. unfold Server.respond.
  by rewrite Hstack.
Qed.


(** ** The main route *)


Lemma deployed_reads : reads Deployment.config deployed.
Proof. repeat split. Qed.



(** C1. The main route does not always send the configured file. The
    static middleware is mounted at the main URL in front of the
    controller and is given no options, so it serves with Express's
    defaults. With an [index.html] in the static directory, a GET request
    to the main URL [/] is answered with that file although the configured
    file exists; with the main URL [/settings], a GET request to it is
    answered with a redirection to [/settings/] as soon as the static
    directory exists. Given the [options] object that
    [initializeMiddlewares] builds and never passes, the static
    middleware passes both requests on. *)
Theorem main_route_shadowed_by_static_index :
  reads Deployment.config deployed
  /\ Fs.stat Deployment.files_with_static_index
       (main_file (Deployment.env (Nconf.Parsed Deployment.config)) deployed)
     = Some (Fs.File Deployment.main_page)
  /\ Server.serve (Deployment.env (Nconf.Parsed Deployment.config))
       Deployment.config Deployment.files_with_static_index
       (Http.Request Http.GET "/")
     = Js.Ok (Some (Http.Response 200 Deployment.static_page))
  /\ Deployment.static_page <> Deployment.main_page
  /\ Express.serve_static Deployment.library "settings/public"
       (Some MainRouter.options_literal) Deployment.files_with_static_index
       Http.GET "/" "/"
     = Express.Next
  /\ Fs.stat Deployment.files
       (main_file (Deployment.env (Nconf.Parsed Deployment.config)) deployed)
     = Some (Fs.File Deployment.main_page)
  /\ Server.serve (Deployment.env (Nconf.Parsed Deployment.config))
       (<["MAIN_FILE_URL" := Js.JsStr "/settings"]> Deployment.config)
       Deployment.files (Http.Request Http.GET "/settings")
     = Js.Ok (Some (Http.Response 301 "Redirecting to /settings/"))
  /\ Express.serve_static Deployment.library "settings/public"
       (Some MainRouter.options_literal) Deployment.files
       Http.GET "/settings" "/"
     = Express.Next.
Proof.
  split; [exact deployed_reads|]. split; [reflexivity|].
  split; [reflexivity|]. split; [discriminate|].
  repeat split.
Qed.

(** ** Requests below the static mount *)






(** ** Exceptions thrown by route handlers *)




(** ** Bootstrap *)

(** C8, as amended. Whatever is thrown inside the [try] block of [init]
    (by the construction of the controller or of the [App], which read the
    configuration, or by [listen] itself) is logged by the [catch] and
    swallowed: [init] returns normally in every environment, with the
    error appended to the console and nothing else changed. *)
Theorem init_logs_and_swallows
    (e : Server.env) (config : Nconf.store) (p : Server.process) :
  fst (Server.init e config p) = Js.Ok tt
  /\ (forall err p',
        Server.init_try e config p = (Js.Throws err, p') ->
        Server.init e config p
        = (Js.Ok tt, Server.console_log (Server.LogError err) p'))
  /\ (forall err,
        Server.new_App e config = Js.Throws err ->
        Server.init e config p
        = (Js.Ok tt, Server.console_log (Server.LogError err) p))
  /\ (forall app err,
        Server.new_App e config = Js.Ok app ->
        Server.bind_port e (MainRouter._port app) = Server.ListenThrows err ->
        Server.init e config p
        = (Js.Ok tt, Server.console_log (Server.LogError err) p)).
Proof.
  unfold Server.init, Server.try_catch.
  split; [|split; [|split]].
  - destruct (Server.init_try e config p) as [[[]|err] p'] eqn:Htry; reflexivity.
  - by intros err p' ->.
  - intros err Hnew. unfold Server.init_try, Server.bind, Server.lift.
    by rewrite Hnew.
  - intros app err Hnew Hbind.
    unfold Server.init_try, Server.bind, Server.lift, Server.listen.
    by rewrite Hnew, Hbind.
Qed.

Lemma init_logs_and_swallows_witness :
  exists err,
    Server.new_App (Deployment.env Nconf.Absent)
      Deployment.config_without_webroot = Js.Throws err
    /\ Js.class err = Js.TypeError
    /\ Server.init (Deployment.env Nconf.Absent)
         Deployment.config_without_webroot Server.start
       = (Js.Ok tt, Server.console_log (Server.LogError err) Server.start).
Proof.
  eexists. split; [reflexivity|]. split; [reflexivity|].
  exact (proj1 (proj2 (proj2 (init_logs_and_swallows
           (Deployment.env Nconf.Absent) Deployment.config_without_webroot
           Server.start))) _ eq_refl).
Defined.

(** C8 as stated fails. The configuration is loaded before [init] is
    called, outside its [try]: when [config/default.json] does not parse,
    the process ends with an uncaught exception and the [catch] has logged
    nothing. A listener that fails to bind reports it after [init] has
    returned, with the same end. *)
Lemma startup_error_outside_try_crashes :
  Server.exit_code
    (Server.main (Deployment.env (Nconf.Malformed "Unexpected token")))
  = Some 1
  /\ Server.uncaught
       (Server.main (Deployment.env (Nconf.Malformed "Unexpected token")))
     = Some (Js.Error_constructor Js.Error
               "Error parsing your configuration file: Unexpected token")
  /\ Server.console
       (Server.main (Deployment.env (Nconf.Malformed "Unexpected token")))
     = []
  /\ Server.exit_code
       (Server.main
          {| Server.config_file := Nconf.Parsed Deployment.config;
             Server.dirname := "/srv/app/settings/controllers";
             Server.source := MainRouter.CompiledJs;
             Server.express := Deployment.library;
             Server.exception_middleware := Deployment.middleware;
             Server.bind_port := fun _ =>
               Server.ListenFails
                 (Js.Error_constructor Js.Error "listen EADDRINUSE");
             Server.closes_idle_connections := true |})
     = Some 1.
Proof. repeat split. Qed.

(** ** Shutdown on SIGINT *)

Section Shutdown.
Import Server.


Lemma main_running e : running_inv (main e).
Proof.
  unfold running_inv, main.
  destruct (Nconf.file (config_file e)) as [config|err]; [|discriminate].
  unfold init, try_catch, init_try, bind, lift, listen.
  destruct (new_App e config) as [a|err]; [|discriminate].
  destruct (bind_port e (MainRouter._port a)); cbn; try discriminate.
  intros _. eexists. split; [reflexivity|]. split; [done|discriminate].
Qed.

Lemma step_exited p ev code : exit_code p = Some code -> step p ev = p.
Proof. unfold step. by intros ->. Qed.

Lemma run_exited trace : forall p code,
  exit_code p = Some code -> run p trace = p.
Proof.
  induction trace as [|ev trace IH]; intros p code Hp; [reflexivity|].
  cbn. rewrite (step_exited p ev code Hp). by apply (IH _ code).
Qed.

Lemma step_running p ev : running_inv p -> running_inv (step p ev).
Proof.
  intros Hinv. destruct (exit_code p) as [code|] eqn:Hexit.
  { by rewrite (step_exited p ev code Hexit). }
  destruct (Hinv Hexit) as (s & Hs & Hl & Hclosed).
  assert (forall s', listening s' = listening s ->
            close_callbacks s' = close_callbacks s ->
            (listening s = false ->
             (connections s' + idle s')%nat <> 0%nat) ->
            running_inv (set_server s' p)) as Hkeep.
  { intros s' Hl' Hcb' Hopen' _. exists s'. split; [reflexivity|].
    split; [exact Hl|]. rewrite Hl', Hcb'. intros Hclosed'.
    split; [by apply Hclosed|by apply Hopen']. }
  assert (forall s', listening s' = listening s ->
            close_callbacks s' = close_callbacks s ->
            running_inv (emit_close_if_drained (set_server s' p))) as Hdrain.
  { intros s' Hl' Hcb'. unfold emit_close_if_drained. cbn.
    destruct (negb (listening s') && (connections s' + idle s' =? 0)%nat
              && negb (close_callbacks s' =? 0)%nat) eqn:Hdrained.
    - intros Hrun. discriminate Hrun.
    - apply Hkeep; [done|done|]. intros Hclosed'.
      rewrite Hl', Hclosed', Hcb' in Hdrained. cbn in Hdrained.
      destruct (Hclosed Hclosed') as [Hcb _].
      apply Nat.eqb_neq in Hcb. rewrite Hcb, andb_true_r in Hdrained.
      by apply Nat.eqb_neq. }
  unfold step. rewrite Hexit, Hs. destruct ev.
  - destruct (Nat.eqb (sigint_listeners p) 0) eqn:Hn;
      [by apply Nat.eqb_eq in Hn|].
    unfold server_close, emit_close_if_drained. rewrite Hs. cbn.
    destruct ((connections s + (if closes_idle s then 0%nat else idle s)
               =? 0)%nat) eqn:Hopen; cbn.
    + intros Hrun. discriminate Hrun.
    + intros _. eexists. split; [reflexivity|]. split; [done|]. cbn.
      intros _. split; [done|by apply Nat.eqb_neq].
  - case_eq (listening s); intros Hlisten; [|exact Hinv].
    apply Hkeep; [done|done|congruence].
  - case_eq (connections s); [intros; exact Hinv|].
    intros n Hc. destruct (respond _ _ _ _); [|exact Hinv].
    assert (running_inv
              (set_server (set_connections n (S (idle s)) s) p)) as Hset.
    { apply Hkeep; [done|done|]. intros _. cbn. lia. }
    intros Hrun. destruct (Hset Hrun) as (s' & Hs' & Hl' & Hclosed').
    by exists s'.
  - case_eq (idle s); [intros; exact Hinv|].
    intros n Hi. destruct (respond _ _ _ _); [|].
    + intros Hrun. cbn in Hrun. exists s. by rewrite <- Hs.
    + apply Hkeep; [done|done|]. intros _. cbn. lia.
  - case_eq (connections s); [intros; exact Hinv|].
    intros n Hc. by apply Hdrain.
  - case_eq (idle s); [intros; exact Hinv|].
    intros n Hi. by apply Hdrain.
Qed.

Lemma run_running trace : forall p, running_inv p -> running_inv (run p trace).
Proof.
  induction trace as [|ev trace IH]; intros p Hp; [exact Hp|].
  apply IH, step_running, Hp.
Qed.

(** The signal closes the server, and drops no connection in flight. *)
Lemma sigint_closed p :
  running_inv p -> exit_code p = None ->
  closed (step p SIGINT) /\ in_flight (step p SIGINT) = in_flight p.
Proof.
  intros Hinv Hexit. destruct (Hinv Hexit) as (s & Hs & Hl & Hclosed).
  unfold step, in_flight, closed. rewrite Hexit, Hs.
  destruct (Nat.eqb (sigint_listeners p) 0) eqn:Hn;
    [by apply Nat.eqb_eq in Hn|].
  unfold server_close, emit_close_if_drained. rewrite Hs. cbn.
  destruct ((connections s + (if closes_idle s then 0%nat else idle s)
             =? 0)%nat) eqn:Hopen; cbn.
  - split; [|done]. eexists. split; [reflexivity|]. cbn.
    repeat (split; [done|]). right. split; [done|by apply Nat.eqb_eq].
  - split; [|done]. eexists. split; [reflexivity|]. cbn.
    repeat (split; [done|]). left. split; [done|by apply Nat.eqb_neq].
Qed.

(** A closed server stays closed, whatever happens. *)
Lemma step_closed p ev : closed p -> closed (step p ev).
Proof.
  intros (s & Hs & Hlisten & Hl & Hcb & Hstate).
  destruct Hstate as [[Hexit Hopen]|[Hexit Hopen]];
    [|rewrite (step_exited p ev 0 Hexit); exists s; split; [done|];
      repeat (split; [done|]); by right].
  assert (forall s', listening s' = false ->
            close_callbacks s' = close_callbacks s ->
            closed (emit_close_if_drained (set_server s' p))) as Hdrain.
  { intros s' Hl' Hcb'. unfold emit_close_if_drained. cbn.
    rewrite Hl', Hcb'. cbn.
    apply Nat.eqb_neq in Hcb as Hcb0. rewrite Hcb0, andb_true_r.
    destruct ((connections s' + idle s' =? 0)%nat) eqn:Hopen'.
    - exists s'. split; [reflexivity|]. cbn. rewrite Hcb'.
      repeat (split; [done|]). right. split; [done|by apply Nat.eqb_eq].
    - exists s'. split; [reflexivity|]. cbn. rewrite Hcb'.
      repeat (split; [done|]). left. split; [done|by apply Nat.eqb_neq]. }
  assert (closed p) as Hp.
  { exists s. repeat (split; [done|]). by left. }
  unfold step. rewrite Hexit, Hs. destruct ev.
  - destruct (Nat.eqb (sigint_listeners p) 0) eqn:Hn;
      [by apply Nat.eqb_eq in Hn|].
    unfold server_close, emit_close_if_drained. rewrite Hs. cbn.
    destruct ((connections s + (if closes_idle s then 0%nat else idle s)
               =? 0)%nat) eqn:Hopen'; cbn.
    + eexists. split; [reflexivity|]. cbn.
      repeat (split; [done|]). right. split; [done|by apply Nat.eqb_eq].
    + eexists. split; [reflexivity|]. cbn. rewrite Hexit.
      repeat (split; [done|]). left. split; [done|by apply Nat.eqb_neq].
  - by rewrite Hlisten.
  - case_eq (connections s); [done|]. intros n Hc.
    destruct (respond _ _ _ _); [|done].
    eexists. split; [reflexivity|]. cbn. rewrite Hexit.
    repeat (split; [done|]). left. split; [done|lia].
  - case_eq (idle s); [done|]. intros n Hi.
    destruct (respond _ _ _ _).
    + exists s. cbn. rewrite Hexit. repeat (split; [done|]). by left.
    + eexists. split; [reflexivity|]. cbn. rewrite Hexit.
      repeat (split; [done|]). left. split; [done|lia].
  - case_eq (connections s); [done|]. intros n Hc. by apply Hdrain.
  - case_eq (idle s); [done|]. intros n Hi. by apply Hdrain.
Qed.

Lemma run_closed trace : forall p, closed p -> closed (run p trace).
Proof.
  induction trace as [|ev trace IH]; intros p Hp; [exact Hp|].
  apply IH, step_closed, Hp.
Qed.

(** No event but its own end, or the answer to its request, takes a
    connection out of flight. *)
Lemma step_in_flight p ev :
  (in_flight p <= in_flight (step p ev) + (if settles ev then 1 else 0))%nat.
Proof.
  unfold step. destruct (exit_code p); [lia|].
  unfold in_flight at 1.
  destruct (server p) as [s|] eqn:Hs; [|lia].
  assert (forall s' k, (connections s <= connections s' + k)%nat ->
            (connections s
             <= in_flight (emit_close_if_drained (set_server s' p)) + k)%nat)
    as Hdrain.
  { intros s' k Hle. unfold emit_close_if_drained, in_flight. cbn.
    by destruct (_ && _). }
  destruct ev; cbn [settles].
  - destruct (Nat.eqb (sigint_listeners p) 0);
      [unfold in_flight; cbn; rewrite Hs; lia|].
    unfold server_close, emit_close_if_drained, in_flight. rewrite Hs. cbn.
    destruct (_ && _); cbn; lia.
  - unfold in_flight. destruct (listening s); cbn; rewrite ?Hs; lia.
  - unfold in_flight. destruct (connections s) as [|n] eqn:Hc;
      [rewrite Hs; lia|].
    destruct (respond _ _ _ _); cbn; rewrite ?Hs; lia.
  - unfold in_flight. destruct (idle s) as [|n]; [rewrite Hs; lia|].
    destruct (respond _ _ _ _); cbn; rewrite ?Hs; lia.
  - destruct (connections s) as [|n] eqn:Hc;
      [unfold in_flight; rewrite Hs; lia|].
    apply Hdrain. cbn. lia.
  - destruct (idle s) as [|n] eqn:Hi;
      [unfold in_flight; rewrite Hs; lia|].
    apply Hdrain. cbn. lia.
Qed.

Lemma run_in_flight trace : forall p,
  (in_flight p <= in_flight (run p trace) + settled trace)%nat.
Proof.
  induction trace as [|ev trace IH]; intros p; [cbn; lia|].
  change (run p (ev :: trace)) with (run (step p ev) trace).
  pose proof (step_in_flight p ev) as Hstep.
  pose proof (IH (step p ev)) as Hrun.
  unfold settled in *. cbn [List.filter].
  destruct (settles ev); cbn [length]; lia.
Qed.

(** What the server was made with never changes. *)
Lemma step_fixed {A} (f : http_server -> A) p ev x :
  (forall s in_flight kept_alive,
     f (set_connections in_flight kept_alive s) = f s) ->
  (forall s l i c,
     f {| served := served s; library := library s;
          closes_idle := closes_idle s; listening := l;
          connections := connections s; idle := i;
          close_callbacks := c; failed := failed s |} = f s) ->
  (forall s, server p = Some s -> f s = x) ->
  forall s, server (step p ev) = Some s -> f s = x.
Proof.
  intros Hset Hclose Hp. unfold step.
  destruct (exit_code p); [exact Hp|].
  assert (forall s0 s', server p = Some s0 -> f s' = f s0 ->
            forall s, server (emit_close_if_drained (set_server s' p)) = Some s
                      -> f s = x) as Hdrain.
  { intros s0 s' Hs0 Hf. unfold emit_close_if_drained. cbn.
    destruct (_ && _); cbn; intros s [= <-]; rewrite Hf; by apply Hp. }
  destruct ev.
  - destruct (Nat.eqb (sigint_listeners p) 0); [exact Hp|].
    unfold server_close.
    destruct (server p) as [s0|] eqn:Hs0; [|by rewrite Hs0].
    apply (Hdrain s0); [done|]. apply Hclose.
  - destruct (server p) as [s0|] eqn:Hs0; [|by rewrite Hs0].
    destruct (listening s0); [|by rewrite Hs0].
    cbn. intros s [= <-]. rewrite Hset. by apply Hp.
  - destruct (server p) as [s0|] eqn:Hs0; [|by rewrite Hs0].
    destruct (connections s0); [by rewrite Hs0|].
    destruct (respond _ _ _ _); [|by rewrite Hs0].
    cbn. intros s [= <-]. rewrite Hset. by apply Hp.
  - destruct (server p) as [s0|] eqn:Hs0; [|by rewrite Hs0].
    destruct (idle s0); [by rewrite Hs0|].
    destruct (respond _ _ _ _); [cbn; by rewrite Hs0|].
    cbn. intros s [= <-]. rewrite Hset. by apply Hp.
  - destruct (server p) as [s0|] eqn:Hs0; [|by rewrite Hs0].
    destruct (connections s0); [by rewrite Hs0|].
    apply (Hdrain s0); [done|]. apply Hset.
  - destruct (server p) as [s0|] eqn:Hs0; [|by rewrite Hs0].
    destruct (idle s0); [by rewrite Hs0|].
    apply (Hdrain s0); [done|]. apply Hset.
Qed.

Lemma run_fixed {A} (f : http_server -> A) trace x :
  (forall s in_flight kept_alive,
     f (set_connections in_flight kept_alive s) = f s) ->
  (forall s l i c,
     f {| served := served s; library := library s;
          closes_idle := closes_idle s; listening := l;
          connections := connections s; idle := i;
          close_callbacks := c; failed := failed s |} = f s) ->
  forall p,
    (forall s, server p = Some s -> f s = x) ->
    forall s, server (run p trace) = Some s -> f s = x.
Proof.
  intros Hset Hclose.
  induction trace as [|ev trace IH]; intros p Hp; [exact Hp|].
  apply (IH (step p ev)). by apply step_fixed.
Qed.

(** The server that [main] starts is made from the environment. *)
Lemma main_closes_idle e s :
  server (main e) = Some s -> closes_idle s = closes_idle_connections e.
Proof.
  unfold main.
  destruct (Nconf.file (config_file e)) as [config|err]; [|discriminate].
  unfold init, try_catch, init_try, bind, lift, listen.
  destruct (new_App e config) as [a|err]; [|discriminate].
  destruct (bind_port e (MainRouter._port a)); cbn;
    try discriminate; by intros [= <-].
Qed.

(** What the signal does to the open connections. *)
Lemma sigint_open p s :
  running_inv p -> exit_code p = None -> server p = Some s ->
  open_connections (step p SIGINT)
  = if closes_idle s then in_flight p else open_connections p.
Proof.
  intros Hinv Hexit Hs. destruct (Hinv Hexit) as (s' & Hs' & Hl & _).
  rewrite Hs in Hs'. injection Hs' as <-.
  unfold step, open_connections, in_flight. rewrite Hexit, Hs.
  destruct (Nat.eqb (sigint_listeners p) 0) eqn:Hn;
    [by apply Nat.eqb_eq in Hn|].
  unfold server_close, emit_close_if_drained. rewrite Hs. cbn.
  destruct (_ && _); cbn; destruct (closes_idle s); lia.
Qed.

End Shutdown.

(** C2. When a running process receives SIGINT (whatever happened
    before), it never accepts a connection again; the signal itself drops
    no connection in flight (of the idle ones it leaves every one open or
    none, as the Node it runs on has it), and nothing but its own end or
    the answer to its request takes a connection out of flight afterwards;
    the process stays alive for as long as a connection is open, and when
    none is it has exited with code 0. *)
Theorem sigint_closes_listener_then_exits
    (e : Server.env) (before after : list Server.event) :
  Server.exit_code (Server.run (Server.main e) before) = None ->
  Server.accepting
    (Server.run (Server.step (Server.run (Server.main e) before) Server.SIGINT)
       after) = false
  /\ Server.in_flight
       (Server.step (Server.run (Server.main e) before) Server.SIGINT)
     = Server.in_flight (Server.run (Server.main e) before)
  /\ Server.open_connections
       (Server.step (Server.run (Server.main e) before) Server.SIGINT)
     = (if Server.closes_idle_connections e
        then Server.in_flight (Server.run (Server.main e) before)
        else Server.open_connections (Server.run (Server.main e) before))
  /\ (Server.in_flight (Server.run (Server.main e) before)
      <= Server.in_flight
           (Server.run
              (Server.step (Server.run (Server.main e) before) Server.SIGINT)
              after)
         + Server.settled after)%nat
  /\ ((Server.exit_code
         (Server.run
            (Server.step (Server.run (Server.main e) before) Server.SIGINT)
            after) = None
       /\ Server.open_connections
            (Server.run
               (Server.step (Server.run (Server.main e) before) Server.SIGINT)
               after) <> 0%nat)
      \/ (Server.exit_code
            (Server.run
               (Server.step (Server.run (Server.main e) before) Server.SIGINT)
               after) = Some 0
          /\ Server.open_connections
               (Server.run
                  (Server.step (Server.run (Server.main e) before)
                     Server.SIGINT)
                  after) = 0%nat)).
Proof.
  set (p := Server.run (Server.main e) before). intros Hexit.
  assert (running_inv p) as Hinv by apply run_running, main_running.
  destruct (sigint_closed p Hinv Hexit) as [Hclosed Hsame].
  pose proof (run_closed after _ Hclosed) as Hafter.
  set (q := Server.run (Server.step p Server.SIGINT) after) in *.
  split.
  { destruct Hafter as (s & Hs & Hlisten & _).
    unfold Server.accepting. rewrite Hs, Hlisten.
    by destruct (Server.exit_code q). }
  split; [exact Hsame|]. split.
  { destruct (Hinv Hexit) as (s & Hs & _).
    rewrite (sigint_open p s Hinv Hexit Hs).
    assert (Server.closes_idle s = Server.closes_idle_connections e) as ->;
      [|reflexivity].
    apply (run_fixed Server.closes_idle before _
             ltac:(reflexivity) ltac:(reflexivity) (Server.main e));
      [|exact Hs].
    apply main_closes_idle. }
  split.
  { rewrite <- Hsame. apply run_in_flight. }
  destruct Hafter as (s & Hs & _ & _ & _ & Hstate).
  unfold Server.open_connections. rewrite Hs. exact Hstate.
Qed.

Lemma sigint_closes_listener_then_exits_witness :
  Server.exit_code
    (Server.run
       (Server.step
          (Server.run
             (Server.main (Deployment.env (Nconf.Parsed Deployment.config)))
             [Server.Connect; Server.Connect;
              Server.Serve Deployment.files (Http.Request Http.GET "/")])
          Server.SIGINT)
       [Server.Connect; Server.SIGINT; Server.Finish])
  = Some 0.
Proof.
  destruct (sigint_closes_listener_then_exits
              (Deployment.env (Nconf.Parsed Deployment.config))
              [Server.Connect; Server.Connect;
               Server.Serve Deployment.files (Http.Request Http.GET "/")]
              [Server.Connect; Server.SIGINT; Server.Finish] eq_refl)
    as (_ & _ & _ & _ & [[Hrun _]|[Hexit _]]).
  - vm_compute in Hrun. discriminate Hrun.
  - exact Hexit.
Defined.

(** * More of the code *)

(** ** Vocabulary *)

Definition is_string (v : Js.value) : bool :=
  match v with Js.JsStr _ => true | _ => false end.

(** The four keys whose values the constructors of the controller and of
    the [App] hand to [path.join]. *)
Definition path_keys : list string :=
  ["MAIN_FILE_PATH"; "MAIN_FILE_NAME"; "WEBROOT"; "STATIC_FILES"].

Definition configured (config : Nconf.store) : bool :=
  forallb (fun key => is_string (Nconf.get config key)) path_keys.

(** The methods the static middleware and the main route answer. *)
Definition reads_only (m : Http.method) : bool :=
  match m with Http.GET | Http.HEAD => true | _ => false end.

Definition is_sigint (ev : Server.event) : bool :=
  match ev with Server.SIGINT => true | _ => false end.

(** A process that runs and listens. *)
Definition serving (p : Server.process) : Prop :=
  Server.exit_code p = None
  /\ exists s, Server.server p = Some s /\ Server.listening s = true.

(** The process a failed [try] block leaves behind: the error on the
    console, no server, no signal handler, exit code 0. *)
Definition swallowed (err : Js.error) : Server.process :=
  {| Server.console := [Server.LogError err];
     Server.responses := [];
     Server.server := None;
     Server.sigint_listeners := 0;
     Server.uncaught := None;
     Server.exit_code := Some 0 |}.

(** The process a successful bootstrap leaves behind. *)
Definition listening_on (e : Server.env) (a : MainRouter.App)
    (port : Js.value) : Server.process :=
  {| Server.console := [Server.LogListening port];
     Server.responses := [];
     Server.server :=
       Some {| Server.served := a;
               Server.library := Server.express e;
               Server.closes_idle := Server.closes_idle_connections e;
               Server.listening := true;
               Server.connections := 0; Server.idle := 0;
               Server.close_callbacks := 0;
               Server.failed := None |};
     Server.sigint_listeners := 1;
     Server.uncaught := None;
     Server.exit_code := None |}.





(** A controller that answers every GET request for [/hello] itself. *)
Definition greedy_controller (answer : string) : MainController.IController :=
  {| MainController.path := Js.JsStr "/";
     MainController.router :=
       [Express.Route Http.GET (Express.literal "/hello")
          (fun _ _ => Express.Respond (Http.Response 200 answer))] |}.

(** ** Construction and the configuration *)

Lemma join_values_ok (vs : list Js.value) :
  match Path.join_values vs with
  | Js.Ok _ => forallb is_string vs = true
  | Js.Throws err =>
      forallb is_string vs = false /\ Js.class err = Js.TypeError
  end.
Proof.
  unfold Path.join_values.
  assert (match mapM Js.typeof_string vs with
          | Some _ => forallb is_string vs = true
          | None => forallb is_string vs = false
          end) as H.
  { induction vs as [|v vs IH]; [done|].
    cbn. destruct v; cbn; try done.
    destruct (mapM Js.typeof_string vs); cbn; done. }
  destruct (mapM Js.typeof_string vs); [exact H|by split].
Qed.

(** X1. With a literal path for MAIN_FILE_URL, the application is built
    exactly when the configuration gives a string for each of the four
    keys whose values go to [path.join]; otherwise [path.join] throws a
    TypeError, in the constructor of the controller or in that of the
    [App]. PORT is not among them. *)
Theorem new_App_needs_path_strings
    (e : Server.env) (config : Nconf.store) (url : string) :
  Nconf.get config "MAIN_FILE_URL" = Js.JsStr url ->
  Express.literal_path url = true ->
  match Server.new_App e config with
  | Js.Ok _ => configured config = true
  | Js.Throws err => configured config = false /\ Js.class err = Js.TypeError
  end.
Proof.
  intros Hurl Hlit.
  unfold Server.new_App, MainController.constructor, configured, path_keys.
  cbn [forallb].
  pose proof (join_values_ok
    [Js.JsStr (Server.dirname e); Nconf.get config "MAIN_FILE_PATH";
     Nconf.get config "MAIN_FILE_NAME"]) as Hjoin.
  pose proof (join_values_ok
    [Nconf.get config "WEBROOT"; Nconf.get config "STATIC_FILES"]) as Hfolder.
  destruct (Path.join_values
              [Js.JsStr (Server.dirname e); Nconf.get config "MAIN_FILE_PATH";
               Nconf.get config "MAIN_FILE_NAME"]) as [filePath|err];
    cbn in Hjoin |- *.
  2: { destruct Hjoin as [Hjoin ?]. split; [|done].
       destruct (is_string (Nconf.get config "MAIN_FILE_PATH")),
         (is_string (Nconf.get config "MAIN_FILE_NAME")); done. }
  unfold MainController.initializeRoutes, Express.router_get.
  cbn [MainController.this_path MainController.this_router
       MainController._filePath].
  rewrite Hurl, (compile_literal (Server.express e) url Hlit).
  cbn -[MainRouter.constructor].
  unfold MainRouter.constructor, MainRouter.initializeMiddlewares,
    MainRouter.initializeMiddlewares_with, MainRouter.initializeDatabase,
    MainRouter.initializeAuthenticators.
  cbn [MainRouter._mainFolder MainRouter._stataicFolder MainRouter.app].
  destruct (Path.join_values
              [Nconf.get config "WEBROOT"; Nconf.get config "STATIC_FILES"])
    as [folder|err];
    cbn -[MainRouter.initializeControllers Express.app_use] in Hfolder |- *.
  2: { destruct Hfolder as [Hfolder ?]. split; [|done].
       destruct (is_string (Nconf.get config "WEBROOT")),
         (is_string (Nconf.get config "STATIC_FILES"));
         rewrite ?andb_false_r; done. }
  rewrite Hurl, (app_use_literal (Server.express e) url _ _ Hlit).
  cbn -[MainRouter.initializeControllers].
  rewrite initializeControllers_appends. cbn.
  destruct (is_string (Nconf.get config "MAIN_FILE_PATH")),
    (is_string (Nconf.get config "MAIN_FILE_NAME")),
    (is_string (Nconf.get config "WEBROOT")),
    (is_string (Nconf.get config "STATIC_FILES")); done.
Qed.

Lemma new_App_needs_path_strings_witness :
  match Server.new_App (Deployment.env Nconf.Absent)
          Deployment.config_without_webroot with
  | Js.Ok _ => configured Deployment.config_without_webroot = true
  | Js.Throws err =>
      configured Deployment.config_without_webroot = false
      /\ Js.class err = Js.TypeError
  end.
Proof.
  exact (new_App_needs_path_strings (Deployment.env Nconf.Absent)
           Deployment.config_without_webroot "/" eq_refl eq_refl).
Defined.

(** ** The main route at its edges *)






(** ** What the server does not answer *)

Lemma serve_static_other_method lib root options fs m url rest :
  reads_only m = false ->
  Express.serve_static lib root options fs m url rest = Express.Next.
Proof. by destruct m. Qed.

Lemma static_layers_pass_other_method lib b url folder fs m p :
  reads_only m = false ->
  Forall (layer_passes lib fs (Http.Request m p)) (static_layers b url folder).
Proof.
  intros Hm. unfold static_layers.
  assert (forall mount root,
            layer_passes lib fs (Http.Request m p)
              (Express.Layer mount (Express.Static root None))) as Hpass.
  { intros mount root. unfold layer_passes. cbn.
    destruct (Express.as_mount mount p); [|done].
    by apply serve_static_other_method. }
  constructor; [apply Hpass|]. destruct b; repeat constructor. apply Hpass.
Qed.

(** X4. Nothing in the application answers a request whose method is
    none of GET, HEAD and OPTIONS: the static middleware let it through
    and the one route is a GET route, so every such request, whatever its
    path, ends in Express's 404. An OPTIONS request for the main URL is
    answered by the router of the controller itself, with the methods of
    the route. *)
Theorem other_methods_get_404
    (e : Server.env) (config : Nconf.store) (s : settings) (fs : Fs.t) :
  reads config s ->
  (forall m p,
     m <> Http.GET -> m <> Http.HEAD -> m <> Http.OPTIONS ->
     Server.serve e config fs (Http.Request m p)
     = Js.Ok (Some (Http.Response 404
                      ("Cannot " +:+ Http.method_name m +:+ " " +:+ p))))
  /\ Server.serve e config fs (Http.Request Http.OPTIONS (main_url s))
     = Js.Ok (Some (Http.Response 200 "GET,HEAD")).
Proof.
  intros Hreads. split.
  - intros m p Hget Hhead Hoptions.
    rewrite (serve_stack e config s fs _ Hreads). f_equal.
    change [main_layer e s; error_layer (Server.exception_middleware e)]
      with ([main_layer e s]
            ++ [error_layer (Server.exception_middleware e)])%list.
    rewrite app_assoc, handle_passes; [reflexivity|].
    apply Forall_app. split.
    + apply static_layers_pass_other_method. by destruct m.
    + constructor; [|constructor].
      unfold layer_passes, Express.router_handle. cbn.
      destruct (Express.route_match (main_url s) p); by destruct m.
  - rewrite (serve_stack e config s fs _ Hreads). f_equal.
    rewrite handle_passes
      by (by apply static_layers_pass_other_method).
    unfold main_layer. rewrite handle_router.
    unfold Express.router_handle.
    cbn [Express.router_scan Express.route_method Express.route_path
         Express.route_handle Http.req_method Http.req_path
         Express.as_route Express.literal].
    by rewrite route_match_self.
Qed.

Lemma other_methods_get_404_witness :
  Server.serve (Deployment.env (Nconf.Parsed Deployment.config))
    Deployment.config Deployment.files (Http.Request Http.DELETE "/")
  = Js.Ok (Some (Http.Response 404 "Cannot DELETE /"))
  /\ Server.serve (Deployment.env (Nconf.Parsed Deployment.config))
       Deployment.config Deployment.files (Http.Request Http.OPTIONS "/")
     = Js.Ok (Some (Http.Response 200 "GET,HEAD")).
Proof.
  destruct (other_methods_get_404
              (Deployment.env (Nconf.Parsed Deployment.config))
              Deployment.config deployed Deployment.files deployed_reads)
    as [Hother Hoptions].
  split; [|exact Hoptions].
  apply (Hother Http.DELETE "/"); discriminate.
Defined.

Lemma lower_drop_chars n : forall s,
  Express.lower (Express.drop_chars n s)
  = Express.drop_chars n (Express.lower s).
Proof. induction n as [|n IH]; intros [|c s]; cbn; first [done | apply IH]. Qed.

Lemma lower_ascii_sep c : Express.lower_ascii c = Path.sep -> c = Path.sep.
Proof. destruct c as [[] [] [] [] [] [] [] []]; cbv; congruence. Qed.

(** A URL outside a mount is not the mount path itself. *)
Lemma route_match_outside url p :
  Express.mount_strip url p = None -> Express.route_match url p = false.
Proof.
  unfold Express.mount_strip, Express.route_match.
  set (m := Express.pattern_stem url).
  destruct (String.eqb m "") eqn:Hm; [discriminate|].
  intros Hnone.
  apply orb_false_iff; split; apply String.eqb_neq; intros H.
  - rewrite H, prefix_refl in Hnone.
    pose proof (drop_chars_length (String.length m) p) as Hlen.
    rewrite <- H, lower_length, Nat.sub_diag in Hlen.
    rewrite <- H, lower_length in Hnone.
    by destruct (Express.drop_chars (String.length p) p).
  - rewrite H, prefix_app in Hnone.
    pose proof (lower_drop_chars (String.length m) p) as Hdrop.
    rewrite H, drop_chars_app in Hdrop.
    destruct (Express.drop_chars (String.length m) p) as [|c r]; [done|].
    cbn in Hdrop. injection Hdrop as Hc Hr.
    apply lower_ascii_sep in Hc. rewrite Hc in Hnone.
    by rewrite Ascii.eqb_refl in Hnone.
Qed.

(** X5. The compiled application serves nothing outside the main URL: a
    request whose path does not lie under MAIN_FILE_URL, whatever its
    method, ends in Express's 404. *)
Theorem outside_main_url_get_404
    (e : Server.env) (config : Nconf.store) (s : settings) (fs : Fs.t)
    (m : Http.method) (p : string) :
  reads config s ->
  Server.source e = MainRouter.CompiledJs ->
  Express.mount_strip (main_url s) p = None ->
  Server.serve e config fs (Http.Request m p)
  = Js.Ok (Some (Http.Response 404
                   ("Cannot " +:+ Http.method_name m +:+ " " +:+ p))).
Proof.
  intros Hreads Hsource Hmount.
  rewrite (serve_stack e config s fs _ Hreads). f_equal.
  change [main_layer e s; error_layer (Server.exception_middleware e)]
    with ([main_layer e s]
          ++ [error_layer (Server.exception_middleware e)])%list.
  rewrite app_assoc, handle_passes; [reflexivity|].
  apply Forall_app. split.
  - unfold static_layers. rewrite Hsource. constructor; [|constructor].
    unfold layer_passes. cbn. by rewrite Hmount.
  - constructor; [|constructor].
    unfold layer_passes, Express.router_handle, Express.options_response.
    cbn. rewrite (route_match_outside _ _ Hmount). cbn.
    by rewrite andb_false_r.
Qed.

Lemma outside_main_url_get_404_witness :
  Server.serve (Deployment.env (Nconf.Parsed Deployment.config))
    (<["MAIN_FILE_URL" := Js.JsStr "/settings"]> Deployment.config)
    Deployment.files (Http.Request Http.GET "/css/site.css")
  = Js.Ok (Some (Http.Response 404 "Cannot GET /css/site.css")).
Proof.
  apply (outside_main_url_get_404
           (Deployment.env (Nconf.Parsed Deployment.config))
           (<["MAIN_FILE_URL" := Js.JsStr "/settings"]> Deployment.config)
           (Settings "settings" "public" "/settings" "../views" "index.html")
           Deployment.files Http.GET "/css/site.css").
  - repeat split.
  - reflexivity.
  - reflexivity.
Defined.



(** ** The controller and the web root *)

(** X7. The controller reads WEBROOT and never uses it: whatever the
    configuration gives for that key, the constructor throws or succeeds
    alike, and on success registers the same route for the same file. The
    main file is looked up from the directory of the controller module
    alone. *)
Theorem controller_ignores_webroot
    (lib : Express.library) (dirname : string) (config : Nconf.store)
    (v : Js.value) :
  Js.bind (MainController.constructor lib dirname (<["WEBROOT" := v]> config))
    (fun c => Js.Ok (MainController.as_IController c,
                     MainController._filePath c))
  = Js.bind (MainController.constructor lib dirname config)
      (fun c => Js.Ok (MainController.as_IController c,
                       MainController._filePath c)).
Proof.
  unfold MainController.constructor, Nconf.get.
  rewrite (lookup_insert_ne config "WEBROOT" "MAIN_FILE_URL" v) by done.
  rewrite (lookup_insert_ne config "WEBROOT" "MAIN_FILE_PATH" v) by done.
  rewrite (lookup_insert_ne config "WEBROOT" "MAIN_FILE_NAME" v) by done.
  destruct (Path.join_values _) as [filePath|err]; [|reflexivity].
  cbn. unfold MainController.initializeRoutes. cbn.
  by destruct (Express.router_get _ _ _ _).
Qed.

(** ** What bootstrap leaves behind *)

Lemma init_try_throws e config p err p' :
  Server.init_try e config p = (Js.Throws err, p') -> p' = p.
Proof.
  unfold Server.init_try, Server.bind, Server.lift, Server.listen.
  destruct (Server.new_App e config) as [a|err0]; [|by intros [= _ <-]].
  destruct (Server.bind_port e (MainRouter._port a)); cbn;
    first [discriminate | by intros [= _ <-]].
Qed.

(** X8. A start-up that fails inside the [try] block ends quietly: the
    error is on the console, no server and no signal handler exist, and
    the process exits with code 0, the code of a successful run. *)
Theorem failed_bootstrap_exits_zero
    (e : Server.env) (config : Nconf.store) (err : Js.error)
    (p' : Server.process) :
  Nconf.file (Server.config_file e) = Js.Ok config ->
  Server.init_try e config Server.start = (Js.Throws err, p') ->
  Server.main e = swallowed err.
Proof.
  intros Hfile Htry. pose proof (init_try_throws _ _ _ _ _ Htry) as ->.
  unfold Server.main. rewrite Hfile.
  unfold Server.init, Server.try_catch. rewrite Htry. reflexivity.
Qed.

Lemma failed_bootstrap_exits_zero_witness :
  exists err,
    Js.class err = Js.TypeError
    /\ Server.main (Deployment.env Nconf.Absent) = swallowed err.
Proof.
  eexists. split; [|
    exact (failed_bootstrap_exits_zero (Deployment.env Nconf.Absent) ∅ _
             Server.start eq_refl eq_refl)].
  reflexivity.
Defined.

Lemma constructor_port lib b mw config controllers a :
  MainRouter.constructor lib b mw config controllers = Js.Ok a ->
  MainRouter._port a = Nconf.get config "PORT".
Proof.
  unfold MainRouter.constructor, MainRouter.initializeMiddlewares,
    MainRouter.initializeMiddlewares_with, MainRouter.initializeDatabase,
    MainRouter.initializeAuthenticators. cbn.
  destruct (Path.join_values _) as [folder|]; [cbn|discriminate].
  destruct (Express.app_use _ _ _ _) as [stack|]; [cbn|discriminate].
  rewrite initializeControllers_appends. cbn. by intros [= <-].
Qed.

(** X9. A start-up that succeeds leaves a running process that listens on
    the configured PORT (whatever value the configuration gives, a missing
    one included) for the application just built, with no connection yet,
    one SIGINT handler and the one line on the console. *)
Theorem bootstrap_listens_on_configured_port
    (e : Server.env) (config : Nconf.store) (a : MainRouter.App) :
  Nconf.file (Server.config_file e) = Js.Ok config ->
  Server.new_App e config = Js.Ok a ->
  Server.bind_port e (Nconf.get config "PORT") = Server.Bound ->
  Server.main e = listening_on e a (Nconf.get config "PORT").
Proof.
  intros Hfile Hnew Hbound.
  assert (MainRouter._port a = Nconf.get config "PORT") as Hport.
  { revert Hnew. unfold Server.new_App.
    destruct (MainController.constructor _ _ _) as [c|]; [cbn|discriminate].
    apply constructor_port. }
  unfold Server.main. rewrite Hfile.
  unfold Server.init, Server.try_catch, Server.init_try, Server.bind,
    Server.lift, Server.listen.
  rewrite Hnew, Hport, Hbound. cbn.
  unfold Server.first_tick. cbn. unfold listening_on. by rewrite Hport.
Qed.

Lemma bootstrap_listens_on_configured_port_witness :
  exists a,
    Server.new_App (Deployment.env (Nconf.Parsed Deployment.config))
      Deployment.config = Js.Ok a
    /\ Server.main (Deployment.env (Nconf.Parsed Deployment.config))
       = listening_on (Deployment.env (Nconf.Parsed Deployment.config)) a
           (Js.JsNum 7000).
Proof.
  eexists. split; [reflexivity|].
  exact (bootstrap_listens_on_configured_port
           (Deployment.env (Nconf.Parsed Deployment.config))
           Deployment.config _ eq_refl eq_refl eq_refl).
Defined.

(** ** The running server *)

Lemma main_serving e :
  Server.exit_code (Server.main e) = None -> serving (Server.main e).
Proof.
  unfold serving, Server.main.
  destruct (Nconf.file (Server.config_file e)) as [config|err]; [|discriminate].
  unfold Server.init, Server.try_catch, Server.init_try, Server.bind,
    Server.lift, Server.listen.
  destruct (Server.new_App e config) as [a|err]; [|discriminate].
  destruct (Server.bind_port e (MainRouter._port a)); cbn; try discriminate.
  intros _. split; [done|]. eexists. by split.
Qed.

Lemma step_serving p ev :
  serving p -> is_sigint ev = false -> serving (Server.step p ev).
Proof.
  intros (Hexit & s & Hs & Hlisten) Hev.
  assert (serving p) as Hp by (split; [done|by exists s]).
  assert (forall s', Server.listening s' = true ->
            serving (Server.emit_close_if_drained (Server.set_server s' p)))
    as Hdrain.
  { intros s' Hl'. unfold Server.emit_close_if_drained. cbn. rewrite Hl'. cbn.
    split; [done|]. by exists s'. }
  unfold Server.step. rewrite Hexit, Hs.
  destruct ev; try discriminate.
  - rewrite Hlisten. split; [done|]. eexists. by split.
  - destruct (Server.connections s); [done|].
    destruct (Server.respond _ _ _ _); [|done].
    split; [done|]. eexists. by split.
  - destruct (Server.idle s); [done|].
    destruct (Server.respond _ _ _ _).
    + split; [done|]. by exists s.
    + split; [done|]. eexists. by split.
  - destruct (Server.connections s); [done|]. by apply Hdrain.
  - destruct (Server.idle s); [done|]. by apply Hdrain.
Qed.

(** X10. Nothing but SIGINT stops the server: a running process that has
    seen connections come, requests arrive and connections end, but no
    signal, still runs and still accepts connections. *)
Theorem runs_until_sigint (e : Server.env) (trace : list Server.event) :
  Server.exit_code (Server.main e) = None ->
  forallb (fun ev => negb (is_sigint ev)) trace = true ->
  Server.exit_code (Server.run (Server.main e) trace) = None
  /\ Server.accepting (Server.run (Server.main e) trace) = true.
Proof.
  intros Hexit Htrace.
  assert (serving (Server.run (Server.main e) trace)) as Hserving.
  { pose proof (main_serving e Hexit) as Hmain.
    revert Hmain Htrace. generalize (Server.main e).
    induction trace as [|ev trace IH]; intros p Hp Htrace; [exact Hp|].
    cbn in Htrace. apply andb_true_iff in Htrace as [Hev Htrace].
    apply negb_true_iff in Hev.
    apply (IH (Server.step p ev)); [by apply step_serving|exact Htrace]. }
  destruct Hserving as (Hrun & s & Hs & Hlisten). split; [exact Hrun|].
  unfold Server.accepting. by rewrite Hrun, Hs.
Qed.

Lemma runs_until_sigint_witness :
  Server.accepting
    (Server.run (Server.main (Deployment.env (Nconf.Parsed Deployment.config)))
       [Server.Connect;
        Server.Serve Deployment.files (Http.Request Http.GET "/");
        Server.ServeIdle Deployment.files (Http.Request Http.GET "/css/site.css");
        Server.FinishIdle; Server.Connect; Server.Finish]) = true.
Proof.
  exact (proj2 (runs_until_sigint
           (Deployment.env (Nconf.Parsed Deployment.config))
           [Server.Connect;
            Server.Serve Deployment.files (Http.Request Http.GET "/");
            Server.ServeIdle Deployment.files
              (Http.Request Http.GET "/css/site.css");
            Server.FinishIdle; Server.Connect; Server.Finish]
           eq_refl eq_refl)).
Defined.

(** The application and the library a process serves with are those of
    its start. *)
Lemma main_served e config a s :
  Nconf.file (Server.config_file e) = Js.Ok config ->
  Server.new_App e config = Js.Ok a ->
  Server.server (Server.main e) = Some s ->
  (Server.served s, Server.library s) = (a, Server.express e).
Proof.
  intros Hfile Hnew. unfold Server.main. rewrite Hfile.
  unfold Server.init, Server.try_catch, Server.init_try, Server.bind,
    Server.lift, Server.listen. rewrite Hnew.
  destruct (Server.bind_port e (MainRouter._port a)); cbn;
    try discriminate; by intros [= <-].
Qed.

(** X11. Closing is graceful for requests too: after SIGINT, a request
    that arrives on a connection in flight (one that was open when the
    signal came and had not completed a request) is answered by the
    application built at start-up, and the process runs on. *)
Theorem requests_answered_while_draining
    (e : Server.env) (config : Nconf.store) (a : MainRouter.App)
    (before : list Server.event) (fs : Fs.t) (req : Http.request)
    (r : Http.response) :
  Nconf.file (Server.config_file e) = Js.Ok config ->
  Server.new_App e config = Js.Ok a ->
  Server.exit_code (Server.run (Server.main e) before) = None ->
  Server.in_flight (Server.run (Server.main e) before) <> 0%nat ->
  Server.respond (Server.express e) a fs req = Some r ->
  Server.exit_code
    (Server.step
       (Server.step (Server.run (Server.main e) before) Server.SIGINT)
       (Server.Serve fs req)) = None
  /\ Server.responses
       (Server.step
          (Server.step (Server.run (Server.main e) before) Server.SIGINT)
          (Server.Serve fs req))
     = (Server.responses
          (Server.step (Server.run (Server.main e) before) Server.SIGINT)
        ++ [r])%list.
Proof.
  intros Hfile Hnew Hexit Hflight Hrespond.
  set (p := Server.run (Server.main e) before) in *.
  assert (running_inv p) as Hinv by apply run_running, main_running.
  destruct (sigint_closed p Hinv Hexit) as [Hclosed Hsame].
  destruct Hclosed as (s & Hs & _ & _ & _ & Hstate).
  rewrite <- Hsame in Hflight. unfold Server.in_flight in Hflight.
  rewrite Hs in Hflight.
  destruct Hstate as [[Hq _]|[_ Hopen]]; [|lia].
  assert ((Server.served s, Server.library s) = (a, Server.express e))
    as [= Hserved Hlib].
  { apply (step_fixed (fun s => (Server.served s, Server.library s))
             p Server.SIGINT _ ltac:(reflexivity) ltac:(reflexivity));
      [|exact Hs].
    apply (run_fixed (fun s => (Server.served s, Server.library s))
             before _ ltac:(reflexivity) ltac:(reflexivity) (Server.main e)).
    intros s0. by apply (main_served e config). }
  unfold Server.step at 1 3. rewrite Hq, Hs.
  destruct (Server.connections s) as [|n]; [done|].
  rewrite Hserved, Hlib, Hrespond. cbn. by rewrite Hq.
Qed.

Lemma requests_answered_while_draining_witness :
  Server.responses
    (Server.run (Server.main (Deployment.env (Nconf.Parsed Deployment.config)))
       [Server.Connect; Server.SIGINT;
        Server.Serve Deployment.files (Http.Request Http.GET "/")])
  = [Http.Response 200 Deployment.main_page].
Proof.
  exact (proj2 (requests_answered_while_draining
           (Deployment.env (Nconf.Parsed Deployment.config))
           Deployment.config _ [Server.Connect] Deployment.files
           (Http.Request Http.GET "/")
           (Http.Response 200 Deployment.main_page)
           eq_refl eq_refl eq_refl ltac:(discriminate) eq_refl)).
Defined.

(** ** Controllers in a list *)

(** X12. Controllers are asked in the order of the list and the first
    answer stands: with a literal main URL, when the layers in front of a
    controller's router pass a request on and that router answers it, this
    is the response, whatever routes the controllers after it have. *)
Theorem first_controller_to_answer_wins
    (lib : Express.library) (b : MainRouter.build)
    (mw : ExceptionsMiddleware.ExceptionMiddleware)
    (config : Nconf.store) (webroot static url : string)
    (cs1 cs2 : list MainController.IController)
    (c : MainController.IController)
    (fs : Fs.t) (req : Http.request) (r : Http.response) :
  Nconf.get config "WEBROOT" = Js.JsStr webroot ->
  Nconf.get config "STATIC_FILES" = Js.JsStr static ->
  Nconf.get config "MAIN_FILE_URL" = Js.JsStr url ->
  Express.literal_path url = true ->
  Forall (layer_passes lib fs req)
    (static_layers b url (Path.join [webroot; static])
     ++ map controller_layer cs1)%list ->
  Express.router_handle (MainController.router c) fs req = Express.Respond r ->
  exists a,
    MainRouter.constructor lib b mw config (cs1 ++ c :: cs2)%list = Js.Ok a
    /\ Server.respond lib a fs req = Some r.
Proof.
  intros Hw Hs Hu Hlit Hbefore Hanswer.
  destruct (constructor_stack lib b mw config (cs1 ++ c :: cs2)%list
              webroot static url Hw Hs Hu Hlit) as (a & Ha & Hstack).
  exists a. split; [exact Ha|].
  unfold Server.respond. rewrite Hstack, map_app. cbn [map].
  rewrite <- app_assoc, app_assoc, handle_passes by exact Hbefore.
  rewrite <- app_comm_cons. unfold controller_layer at 1.
  by rewrite handle_router, Hanswer.
Qed.

Lemma first_controller_to_answer_wins_witness :
  exists a,
    MainRouter.constructor Deployment.library MainRouter.CompiledJs
      Deployment.middleware Deployment.config
      [greedy_controller "first"; greedy_controller "second"] = Js.Ok a
    /\ Server.respond Deployment.library a Deployment.files
         (Http.Request Http.GET "/hello")
       = Some (Http.Response 200 "first").
Proof.
  exact (first_controller_to_answer_wins Deployment.library
           MainRouter.CompiledJs
           Deployment.middleware Deployment.config
           "settings" "public" "/" [] [greedy_controller "second"]
           (greedy_controller "first") Deployment.files
           (Http.Request Http.GET "/hello") (Http.Response 200 "first")
           eq_refl eq_refl eq_refl eq_refl ltac:(repeat constructor) eq_refl).
Defined.

(** X13. The error middleware is no catch-all for requests: with a
    literal main URL, a request that every static layer and every
    controller passes on is answered by Express's final handler with 404,
    and the error middleware, although mounted on every path, is not run
    for it. *)
Theorem unanswered_request_gets_404
    (lib : Express.library) (b : MainRouter.build)
    (mw : ExceptionsMiddleware.ExceptionMiddleware)
    (config : Nconf.store) (webroot static url : string)
    (controllers : list MainController.IController)
    (fs : Fs.t) (req : Http.request) :
  Nconf.get config "WEBROOT" = Js.JsStr webroot ->
  Nconf.get config "STATIC_FILES" = Js.JsStr static ->
  Nconf.get config "MAIN_FILE_URL" = Js.JsStr url ->
  Express.literal_path url = true ->
  Forall (layer_passes lib fs req)
    (static_layers b url (Path.join [webroot; static])
     ++ map controller_layer controllers)%list ->
  exists a,
    MainRouter.constructor lib b mw config controllers = Js.Ok a
    /\ Server.respond lib a fs req
       = Some (Http.Response 404
                 ("Cannot " +:+ Http.method_name (Http.req_method req)
                  +:+ " " +:+ Http.req_path req)).
Proof.
  intros Hw Hs Hu Hlit Hpass.
  destruct (constructor_stack lib b mw config controllers
              webroot static url Hw Hs Hu Hlit) as (a & Ha & Hstack).
  exists a. split; [exact Ha|].
  unfold Server.respond.
  rewrite Hstack, app_assoc, handle_passes by exact Hpass.
  reflexivity.
Qed.

Lemma unanswered_request_gets_404_witness :
  exists a,
    MainRouter.constructor Deployment.library MainRouter.CompiledJs
      Deployment.middleware
      Deployment.config [greedy_controller "first"] = Js.Ok a
    /\ Server.respond Deployment.library a Deployment.files
         (Http.Request Http.GET "/bye")
       = Some (Http.Response 404 "Cannot GET /bye").
Proof.
  exact (unanswered_request_gets_404 Deployment.library MainRouter.CompiledJs
           Deployment.middleware Deployment.config
           "settings" "public" "/" [greedy_controller "first"]
           Deployment.files (Http.Request Http.GET "/bye")
           eq_refl eq_refl eq_refl eq_refl ltac:(repeat constructor)).
Defined.

(** ** Telling exceptions apart *)

Lemma append_cancel_l s a b : s +:+ a = s +:+ b -> a = b.
Proof.
  induction s as [|c s IH]; [done|].
  rewrite !append_cons. intros [= H]. by apply IH.
Qed.

Lemma append_cancel_r s : forall a b, a +:+ s = b +:+ s -> a = b.
Proof.
  intros a. induction a as [|c a IH]; intros b H.
  - destruct b as [|d b]; [done|].
    change ("" +:+ s) with s in H. rewrite append_cons in H.
    apply (f_equal String.length) in H.
    cbn in H. rewrite app_length in H. lia.
  - destruct b as [|d b].
    + change ("" +:+ s) with s in H. rewrite append_cons in H.
      apply (f_equal String.length) in H.
      cbn in H. rewrite app_length in H. lia.
    + rewrite !append_cons in H. injection H as -> H. f_equal. by apply IH.
Qed.

(** X14. An exception of the taxonomy keeps the class it was made as, and
    the two classes that take an argument keep it in the message: equal
    exception objects were made by the same class and, for the e-mail and
    the post id, from the same argument. *)
Theorem exception_keeps_class_and_argument
    (c c' : Exceptions.subclass) (arg arg' : string) :
  Exceptions.new_exception c arg = Exceptions.new_exception c' arg' ->
  c = c'
  /\ (c = Exceptions.PostNotFound
      \/ c = Exceptions.UserWithThatEmailAlreadyExists -> arg = arg').
Proof.
  unfold Exceptions.new_exception, Exceptions.HttpException_constructor,
    Js.Error_constructor.
  intros H.
  pose proof (f_equal Js.class H) as Hclass.
  pose proof (f_equal (fun x => Js.props x !! "message") H) as Hprops.
  cbn in Hclass, Hprops. clear H.
  assert (c = c') as <- by (destruct c, c'; done).
  split; [done|].
  rewrite !lookup_singleton_eq in Hprops. injection Hprops as Hmsg.
  intros [->| ->]; cbn in Hmsg.
  - apply append_cancel_l in Hmsg. by apply append_cancel_r in Hmsg.
  - apply append_cancel_l in Hmsg. by apply append_cancel_r in Hmsg.
Qed.

Lemma exception_keeps_class_and_argument_witness :
  Exceptions.PostNotFound = Exceptions.PostNotFound
  /\ (Exceptions.PostNotFound = Exceptions.PostNotFound
      \/ Exceptions.PostNotFound = Exceptions.UserWithThatEmailAlreadyExists ->
      "42" = "42").
Proof.
  exact (exception_keeps_class_and_argument Exceptions.PostNotFound
           Exceptions.PostNotFound "42" "42" eq_refl).
Defined.

(** ** How a running server ends *)

(** The console of a process that the SIGINT callback has ended. *)
Definition terminated (p : Server.process) : Prop :=
  Server.exit_code p = Some 0
  /\ exists lines, Server.console p = (lines ++ [Server.LogTerminated])%list.

Lemma step_ends_terminated p ev :
  running_inv p -> Server.exit_code p = None ->
  Server.exit_code (Server.step p ev) = None \/ terminated (Server.step p ev).
Proof.
  intros Hinv Hexit. destruct (Hinv Hexit) as (s & Hs & Hl & _).
  assert (forall s',
            Server.exit_code
              (Server.emit_close_if_drained (Server.set_server s' p)) = None
            \/ terminated
                 (Server.emit_close_if_drained (Server.set_server s' p)))
    as Hdrain.
  { intros s'. unfold Server.emit_close_if_drained. cbn.
    destruct (_ && _); cbn; [right|by left].
    split; [done|]. by eexists. }
  unfold Server.step. rewrite Hexit, Hs. destruct ev.
  - destruct (Nat.eqb (Server.sigint_listeners p) 0) eqn:Hn;
      [by apply Nat.eqb_eq in Hn|].
    unfold Server.server_close. rewrite Hs. apply Hdrain.
  - left. by destruct (Server.listening s).
  - left. destruct (Server.connections s); [done|].
    by destruct (Server.respond _ _ _ _).
  - left. destruct (Server.idle s); [done|].
    by destruct (Server.respond _ _ _ _).
  - destruct (Server.connections s); [by left|]. apply Hdrain.
  - destruct (Server.idle s); [by left|]. apply Hdrain.
Qed.

(** X15. Once the server runs, the process can end in one way only: by the
    callback of the SIGINT handler. Whatever events follow, it either still
    runs or has exited with code 0 right after logging the termination
    line; the default action of the signal never applies. *)
Theorem running_server_ends_only_by_sigint_callback
    (e : Server.env) (trace : list Server.event) :
  Server.exit_code (Server.main e) = None ->
  Server.exit_code (Server.run (Server.main e) trace) = None
  \/ terminated (Server.run (Server.main e) trace).
Proof.
  intros Hexit. pose proof (main_running e) as Hinv.
  revert Hinv Hexit. generalize (Server.main e).
  induction trace as [|ev trace IH]; intros p Hinv Hexit; [by left|].
  change (Server.run p (ev :: trace))
    with (Server.run (Server.step p ev) trace).
  destruct (step_ends_terminated p ev Hinv Hexit) as [Hrun|Hend].
  - apply IH; [by apply step_running|exact Hrun].
  - right. destruct Hend as [Hcode Hlog].
    by rewrite (run_exited trace _ 0 Hcode).
Qed.

Lemma running_server_ends_only_by_sigint_callback_witness :
  Server.exit_code
    (Server.run (Server.main (Deployment.env (Nconf.Parsed Deployment.config)))
       [Server.Connect; Server.SIGINT; Server.SIGINT]) = None
  \/ terminated
       (Server.run
          (Server.main (Deployment.env (Nconf.Parsed Deployment.config)))
          [Server.Connect; Server.SIGINT; Server.SIGINT]).
Proof.
  exact (running_server_ends_only_by_sigint_callback
           (Deployment.env (Nconf.Parsed Deployment.config))
           [Server.Connect; Server.SIGINT; Server.SIGINT] eq_refl).
Defined.
